(** * Control server start-up (cmd/hzn/control.go)

    A shallow embedding of [controlServer.Run] and [snakeOilCert]:
    the credential bootstrap against Vault, the TLS material selection
    (managed certificate or self-signed fallback), the two background loops
    and the request multiplexer of the listener.

    Everything the program asks of the outside (environment variables, the
    service-account token file, Vault, the database, the clock, the random
    source, the libraries of [pkg/...]) is answered by a [World]; the calls
    the program makes are recorded, in order, in a trace of [Event]s. *)

From Stdlib Require Import ZArith Lia Strings.Byte Strings.Ascii.
From stdpp Require Import base gmap strings list.

Local Open Scope Z_scope.
Local Open Scope string_scope.

(** ** Go values *)

(** A Go [error] value is kept as its message; [log.Fatal(err)] prints it. *)
Definition Error := string.

(** The pair [(v, err)] a Go call returns, where the caller looks at [err]
    first. *)
Inductive Result (A : Type) : Type :=
| Ok (a : A)
| Err (e : Error).
Arguments Ok {A} a.
Arguments Err {A} e.

Definition bytes := list byte.

(** [time.Duration] counts nanoseconds; [time.Time] is kept as nanoseconds
    since an arbitrary epoch. *)
Definition Duration := Z.
Definition Time := Z.

Module time.
Definition Nanosecond : Duration := 1.
Definition Microsecond : Duration := 1000 * Nanosecond.
Definition Millisecond : Duration := 1000 * Microsecond.
Definition Second : Duration := 1000 * Millisecond.
Definition Minute : Duration := 60 * Second.
Definition Hour : Duration := 60 * Minute.
Definition Add (t : Time) (d : Duration) : Time := t + d.
Definition Sub (t u : Time) : Duration := t - u.
End time.

(** ** strings *)

Module strings.
(** [strings.HasPrefix(s, prefix)]:
    [len(s) >= len(prefix) && s[:len(prefix)] == prefix]. *)
Definition HasPrefix (s prefix : string) : bool :=
  (String.length prefix <=? String.length s)%nat
  && String.eqb (String.substring 0 (String.length prefix) s) prefix.

(** [s[n:]] for [n <= len(s)]. *)
Definition from (n : nat) (s : string) : string :=
  String.substring n (String.length s - n) s.

(** The ASCII white space: tab, LF, VT, FF, CR and space. *)
Definition isSpace (c : Ascii.ascii) : bool :=
  match c with
  | "009"%char | "010"%char | "011"%char | "012"%char | "013"%char
  | " "%char => true
  | _ => false
  end.

(** The other white space of Unicode, [unicode.IsSpace], in UTF-8:
    U+0085 and U+00A0 take two bytes; U+1680, U+2000 to U+200A, U+2028,
    U+2029, U+202F, U+205F and U+3000 take three. *)
Definition isSpace2 (a b : Ascii.ascii) : bool :=
  let x := Ascii.N_of_ascii a in
  let y := Ascii.N_of_ascii b in
  ((x =? 194) && ((y =? 133) || (y =? 160)))%N.

Definition isSpace3 (a b c : Ascii.ascii) : bool :=
  let x := Ascii.N_of_ascii a in
  let y := Ascii.N_of_ascii b in
  let z := Ascii.N_of_ascii c in
  (((x =? 225) && (y =? 154) && (z =? 128))
   || ((x =? 226) && (y =? 128)
       && (((128 <=? z) && (z <=? 138)) || (z =? 168) || (z =? 169) || (z =? 175)))
   || ((x =? 226) && (y =? 129) && (z =? 159))
   || ((x =? 227) && (y =? 128) && (z =? 128)))%N.

(** [bytes.TrimLeftFunc(s, unicode.IsSpace)]: the white-space runes at the
    front are dropped; a byte that starts no white-space rune, be it an
    invalid one, stops it. *)
Fixpoint TrimLeft (s : string) : string :=
  match s with
  | String.String a r =>
      if isSpace a then TrimLeft r
      else
        match r with
        | String.String b r' =>
            if isSpace2 a b then TrimLeft r'
            else
              match r' with
              | String.String c r'' =>
                  if isSpace3 a b c then TrimLeft r'' else s
              | String.EmptyString => s
              end
        | String.EmptyString => s
        end
  | String.EmptyString => ""
  end.

Fixpoint revApp (s acc : string) : string :=
  match s with
  | String.String a r => revApp r (String.String a acc)
  | String.EmptyString => acc
  end.

(** The same on the bytes in reverse: the white-space runes at the end
    are met last byte first. *)
Fixpoint TrimLeftRev (s : string) : string :=
  match s with
  | String.String a r =>
      if isSpace a then TrimLeftRev r
      else
        match r with
        | String.String b r' =>
            if isSpace2 b a then TrimLeftRev r'
            else
              match r' with
              | String.String c r'' =>
                  if isSpace3 c b a then TrimLeftRev r'' else s
              | String.EmptyString => s
              end
        | String.EmptyString => s
        end
  | String.EmptyString => ""
  end.

(** [bytes.TrimRightFunc(s, unicode.IsSpace)] *)
Definition TrimRight (s : string) : string :=
  revApp (TrimLeftRev (revApp s "")) "".

(** [bytes.TrimSpace]: leading and trailing white space, as defined by
    Unicode, sliced off. *)
Definition TrimSpace (s : string) : string := TrimRight (TrimLeft s).
End strings.

(** ** The process environment *)

(** [os.Getenv(key)]: the value of the variable, empty when it is not set. *)
Definition Getenv (env : gmap string string) (key : string) : string :=
  default "" (env !! key).

(** ** The request multiplexer (control.go, lines 294-301) *)

Record Request := {
  ProtoMajor : Z;
  Header : gmap string (list string)
}.

(** [Header.Get(key)] for a key already in canonical form: the first value
    stored under the key, empty when there is none. *)
Definition Header_Get (h : gmap string (list string)) (key : string) : string :=
  match h !! key with
  | Some (v :: _) => v
  | _ => ""
  end.

(** The two handlers a request can be handed to: [gs.ServeHTTP] of the gRPC
    server and [s.ServeHTTP] of the control server. *)
Inductive Served :=
| gs_ServeHTTP (r : Request)
| s_ServeHTTP (r : Request).

(** [r.Header.Get("Content-Type")] *)
Definition contentType (r : Request) : string :=
  Header_Get (Header r) "Content-Type".

Definition isGRPC (r : Request) : bool :=
  (ProtoMajor r =? 2)%Z
  && strings.HasPrefix (contentType r) "application/grpc".

Definition Handler (r : Request) : Served :=
  if isGRPC r then gs_ServeHTTP r else s_ServeHTTP r.

(** ** Feature toggles (lines 126 and 142) *)

Definition useAWS (env : gmap string string) : bool :=
  negb (bool_decide (Getenv env "USE_AWS" = "0")).

Definition useTLSManager (env : gmap string string) : bool :=
  negb (bool_decide (Getenv env "USE_TLS_MANAGER" = "0")).

(** ** Library values the program handles *)

Module hclog.
Inductive Level := Trace | Debug | Info | Warn | Error.
Record Logger := { Name : string; LogLevel : Level }.
(** [L.Named(name)] *)
Definition Named (L : Logger) (name : string) : Logger :=
  {| Name := Name L +:+ "." +:+ name; LogLevel := LogLevel L |}.
End hclog.

Module api.
(** The Vault client, as far as the program uses it: the token it
    authenticates with. *)
Record Client := { Token : string }.
Record SecretAuth := { ClientToken : string; Accessor : string }.
(** [Auth] is a pointer in [api.Secret]. *)
Record Secret := { Auth : option SecretAuth }.
Definition SetToken (c : Client) (v : string) : Client := {| Token := v |}.
End api.

Module rsa.
Record PrivateKey := { Bits : Z; Secret : nat }.
Record PublicKey := { Of : PrivateKey }.
Definition Public (k : PrivateKey) : PublicKey := {| Of := k |}.
End rsa.

Module pkix.
Record Name := {
  Country : list string;
  Organization : list string;
  Names : list string;
  ExtraNames : list string;
  CommonName : string
}.
End pkix.

Module x509.
(** [KeyUsage] is a bit set, [KeyUsageDigitalSignature = 1 << iota]. *)
Definition KeyUsage := Z.
Definition KeyUsageDigitalSignature : KeyUsage := Z.shiftl 1 0.
Definition KeyUsageContentCommitment : KeyUsage := Z.shiftl 1 1.
Definition KeyUsageKeyEncipherment : KeyUsage := Z.shiftl 1 2.
Definition KeyUsageDataEncipherment : KeyUsage := Z.shiftl 1 3.
Definition KeyUsageKeyAgreement : KeyUsage := Z.shiftl 1 4.
Definition KeyUsageCertSign : KeyUsage := Z.shiftl 1 5.
Definition KeyUsageCRLSign : KeyUsage := Z.shiftl 1 6.
Definition KeyUsageEncipherOnly : KeyUsage := Z.shiftl 1 7.
Definition KeyUsageDecipherOnly : KeyUsage := Z.shiftl 1 8.

(** The fields of [x509.Certificate] the template sets. *)
Record Certificate := {
  Subject : pkix.Name;
  SerialNumber : Z;
  NotBefore : Time;
  NotAfter : Time;
  KeyUsage_ : KeyUsage
}.
End x509.

Module tls.
Record Certificate := {
  Certificate_ : list bytes;
  PrivateKey : rsa.PrivateKey
}.
Record Config := { Certificates : list Certificate }.
End tls.

(** Handles of the collaborators ([gorm.DB], [session.Session],
    [tlsmanage.Manager], [control.Server], the Consul lock manager). *)
Inductive DB := DBHandle (id : nat).
Inductive Session := SessionHandle (id : nat).
Inductive Manager := ManagerHandle (id : nat).
Inductive LockManager := LockHandle (id : nat).
Inductive Server := ServerHandle (id : nat).

Module tlsmanage.
Record ManagerConfig := {
  L : hclog.Logger;
  Domain : string;
  VaultClient : api.Client;
  Staging : bool
}.
End tlsmanage.

Module control.
Record ServerConfig := {
  Logger : hclog.Logger;
  DB_ : DB;
  RegisterToken : string;
  OpsToken : string;
  VaultClient : api.Client;
  VaultPath : string;
  KeyId : string;
  AwsSession : option Session;
  Bucket : string;
  ASNDB : string;
  HubAccessKey : string;
  HubSecretKey : string;
  HubImageTag : string;
  LockManager_ : LockManager
}.
End control.

Module http.
Record Server := {
  TLSConfig : tls.Config;
  Addr : string;
  IdleTimeout : Duration;
  Handler_ : Request -> Served;
  ErrorLog : hclog.Logger
}.
End http.

(** ** The outside world *)

(** What [os.Open] finds at the service-account token path. *)
Inductive TokenFile :=
| Missing                      (* no such file *)
| NoPermission                 (* the file is there, opening it is refused *)
| ReadFails (e : Error)        (* opens, reading it fails *)
| Readable (data : string).    (* opens and reads *)

(** How a call that may never come back ends: [ListenAndServeTLS] blocks
    in the accept loop, or returns an error value. *)
Inductive Serve :=
| ServesForever
| ServeReturns (err : option Error).

Record World := {
  wEnv : gmap string string;
  wNewClient : Result api.Client;
  wTokenFile : TokenFile;
  (* vaultClient.Logical().Write(path, data): the pair (sec, err) *)
  wVaultWrite : string -> list (string * string) -> option api.Secret * option Error;
  wGormOpen : string -> string -> Result DB;
  wNewSession : Result Session;
  wNewManager : tlsmanage.ManagerConfig -> Result Manager;
  wSetupRoute53 : Manager -> Session -> string -> option Error;
  wHubMaterial : Manager -> Result (bytes * bytes);
  wNewConsulLockManager : Result LockManager;
  wNewServer : control.ServerConfig -> Result Server;
  wCertificate : Manager -> Result tls.Certificate;
  (* rsa.GenerateKey(rand.Reader, bits): the secret of the key, or err *)
  wGenerateKey : Z -> Result nat;
  (* rand.Int(rand.Reader, max) *)
  wRandInt : Z -> Result Z;
  (* the reading of the n-th call of time.Now() *)
  wNow : nat -> Time;
  (* x509.CreateCertificate(rand.Reader, template, parent, pub, priv) *)
  wCreateCertificate :
    x509.Certificate -> x509.Certificate -> rsa.PublicKey -> rsa.PrivateKey -> Result bytes;
  (* whether tlsmgr.RegisterRenewHandler returns for this receiver (a nil
     receiver is [None]); the method is declared in pkg/tlsmanage *)
  wRegisterRenewHandler : option Manager -> bool;
  wListenAndServeTLS : http.Server -> Serve
}.

(** ** Calls the program makes, in the order it makes them *)

(** [hclog.WithContext(context.Background(), L)]: the context handed to the
    background tasks that take one. *)
Inductive Context := Background (L : hclog.Logger).

Inductive Goroutine :=
| GoRenewToken (c : api.Client)                      (* lines 98-107 *)
| GoStartHealthz (L : hclog.Logger)                  (* line 191 *)
| GoPeriodicRefresh (ctx : Context) (every : Duration) (m : Manager)
    (s : Server) (hubDomain : string)                (* lines 253-260 *)
| GoWorkerRun (ctx : Context) (wl : hclog.Logger) (queues : list string)
    (connInfo : string).                             (* lines 316-325 *)

Inductive Event :=
| EvLog (L : hclog.Logger) (lvl : hclog.Level) (msg : string) (args : list string)
| EvPrintf (msg : string)
| EvOpen (path : string)
| EvReadAll
| EvClose
| EvVaultWrite (path : string) (data : list (string * string))
| EvSetToken (v : string)
| EvTick (t : Time)
| EvRenewSelf (increment : Z)
| EvGo (g : Goroutine)
| EvGormOpen (dialect url : string)
| EvNewSession
| EvNewManager (cfg : tlsmanage.ManagerConfig)
| EvSetupRoute53 (zoneId : string)
| EvHubMaterial
| EvNewConsulLockManager
| EvNewServer (cfg : control.ServerConfig)
| EvConfigDB
| EvRegisterHandler (name : string)
| EvRegisterPeriodicJob (name queue jobType : string) (every : Duration)
| EvSetHubTLS (cert key : bytes) (domain : string)
| EvRefreshFromVault
| EvCertificate
| EvGrpcNewServer
| EvGrpcRegister (service : string)
| EvGenerateKey (bits : Z)
| EvRandInt (max : Z)
| EvNow
| EvCreateCertificate (template parent : x509.Certificate)
    (pub : rsa.PublicKey) (priv : rsa.PrivateKey)
| EvRegisterRenewHandler (recv : option Manager)
| EvPrintHandlers
| EvNewWorker (queues : list string)
| EvListenAndServeTLS (hs : http.Server) (certFile keyFile : string).

(** ** The start-up monad: a trace, a clock, and the ways a call can end *)

Record St := { trace : list Event; nowCalls : nat }.

Definition init : St := {| trace := []; nowCalls := 0 |}.

Inductive Res (A : Type) : Type :=
| Ret (a : A)            (* the call returns *)
| Fatal (msg : string)   (* log.Fatal: the process exits with status 1 *)
| Panic (msg : string)   (* run-time panic *)
| Blocks.                (* the call never returns *)
Arguments Ret {A} a.
Arguments Fatal {A} msg.
Arguments Panic {A} msg.
Arguments Blocks {A}.

Definition M (A : Type) : Type := St -> Res A * St.

Definition ret {A} (a : A) : M A := fun st => (Ret a, st).

Definition bind {A B} (m : M A) (k : A -> M B) : M B :=
  fun st =>
    match m st with
    | (Ret a, st') => k a st'
    | (Fatal msg, st') => (Fatal msg, st')
    | (Panic msg, st') => (Panic msg, st')
    | (Blocks, st') => (Blocks, st')
    end.

Notation "'do' x <- c1 ; c2" := (bind c1 (fun x => c2))
  (at level 10, x name, c1 at level 100, c2 at level 200).
Notation "'do' ' ( x , y ) <- c1 ; c2" := (bind c1 (fun p => let '(x, y) := p in c2))
  (at level 10, x name, y name, c1 at level 100, c2 at level 200).
Notation "c1 ;; c2" := (bind c1 (fun _ => c2))
  (at level 100, c2 at level 200, right associativity).

Definition emit (ev : Event) : M unit :=
  fun st => (Ret tt, {| trace := trace st ++ [ev]; nowCalls := nowCalls st |}).

(** [log.Fatal(v)] and [log.Fatalf(format + ": %v", err)] *)
Definition log_Fatal {A} (msg : string) : M A := fun st => (Fatal msg, st).

Definition panic {A} (msg : string) : M A := fun st => (Panic msg, st).

(** [v, err := call; if err != nil { log.Fatal(err) }] *)
Definition orFatal {A} (r : Result A) : M A :=
  match r with
  | Ok a => ret a
  | Err e => log_Fatal e
  end.

(** [v, err := call; if err != nil { log.Fatalf(prefix + "%v", err) }] *)
Definition orFatalf {A} (prefix : string) (r : Result A) : M A :=
  match r with
  | Ok a => ret a
  | Err e => log_Fatal (prefix +:+ e)
  end.

Definition log (L : hclog.Logger) (lvl : hclog.Level) (msg : string)
    (args : list string) : M unit :=
  emit (EvLog L lvl msg args).

(** [time.Now()]: the next reading of the clock. *)
Definition time_Now (w : World) : M Time :=
  fun st =>
    (Ret (wNow w (nowCalls st)),
     {| trace := trace st ++ [EvNow]; nowCalls := S (nowCalls st) |}).

Definition when (b : bool) (m : M unit) : M unit := if b then m else ret tt.

(** ** The service-account token file *)

Definition tokenPath : string :=
  "/var/run/secrets/kubernetes.io/serviceaccount/token".

(** An open file, as far as the program uses it: what reading all of it
    gives. *)
Inductive File := FileOf (content : Result string).

Definition os_Open (tf : TokenFile) : Result File :=
  match tf with
  | Missing => Err ("open " +:+ tokenPath +:+ ": no such file or directory")
  | NoPermission => Err ("open " +:+ tokenPath +:+ ": permission denied")
  | ReadFails e => Ok (FileOf (Err e))
  | Readable data => Ok (FileOf (Ok data))
  end.

Definition ioutil_ReadAll (f : File) : Result string :=
  match f with FileOf content => content end.

(** ** snakeOilCert (lines 335-375) *)

Definition rsa_GenerateKey (w : World) (bits : Z) : M (Result rsa.PrivateKey) :=
  emit (EvGenerateKey bits) ;;
  ret match wGenerateKey w bits with
      | Ok secret => Ok {| rsa.Bits := bits; rsa.Secret := secret |}
      | Err e => Err e
      end.

Definition rand_Int (w : World) (max : Z) : M (Result Z) :=
  emit (EvRandInt max) ;; ret (wRandInt w max).

Definition x509_CreateCertificate (w : World) (template parent : x509.Certificate)
    (pub : rsa.PublicKey) (priv : rsa.PrivateKey) : M (Result bytes) :=
  emit (EvCreateCertificate template parent pub priv) ;;
  ret (wCreateCertificate w template parent pub priv).

(** Lines 348-368: the subject and the template, from the serial number and
    the two readings of the clock: [notBefore := time.Now()] on line 358 and
    the [time.Now()] of the template literal on line 365. *)
Definition snakeOilTemplate (commonName : string) (serialNumber : Z)
    (notBefore now : Time) : x509.Certificate :=
  let subj := {|
    pkix.Country := ["CH"];
    pkix.Organization := ["SnakeOil"];
    pkix.Names := [];
    pkix.ExtraNames := [];
    pkix.CommonName := commonName
  |} in
  (* 5 years, hopefully the instance won't stay up longer than this *)
  let notAfter := time.Add notBefore (5 * 365 * 24 * time.Hour) in
  {|
    x509.Subject := subj;
    x509.SerialNumber := serialNumber;
    x509.NotBefore := now;
    x509.NotAfter := notAfter;
    x509.KeyUsage_ := x509.KeyUsageDigitalSignature
  |}.

Definition snakeOilCert (w : World) (commonName : string)
    : M (bytes * rsa.PrivateKey) :=
  do r <- rsa_GenerateKey w 4096;
  do privateSnakeOil <- orFatalf "unable to create snakeoil ed25519 key pair: " r;
  let serialNumberLimit := Z.shiftl 1 128 in
  do r <- rand_Int w serialNumberLimit;
  do serialNumber <- orFatalf "failed to generate serial number: " r;
  do notBefore <- time_Now w;
  do now <- time_Now w;
  let template := snakeOilTemplate commonName serialNumber notBefore now in
  do r <- x509_CreateCertificate w template template
            (rsa.Public privateSnakeOil) privateSnakeOil;
  do cert <- orFatalf "unable to create x509 certificate: " r;
  ret (cert, privateSnakeOil).

(** ** Run, lines 70-109: log in to Vault with the service-account token *)

(** The data of the login exchange, lines 83-86. *)
Definition loginRequest (data : string) : list (string * string) :=
  [("role", "horizon"); ("jwt", strings.TrimSpace data)].

Definition vaultLogin (w : World) (L : hclog.Logger) (vaultClient : api.Client)
    : M api.Client :=
  (* If we have token AND this is kubernetes, then let's try to get a token *)
  if bool_decide (api.Token vaultClient = "") then
    emit (EvOpen tokenPath) ;;
    match os_Open (wTokenFile w) with
    | Ok f =>
        log L hclog.Info "attempting to login to vault via kubernetes auth" [] ;;
        emit EvReadAll ;;
        do data <- orFatal (ioutil_ReadAll f);
        emit EvClose ;;
        let req := loginRequest data in
        emit (EvVaultWrite "auth/kubernetes/login" req) ;;
        let '(sec, err) := wVaultWrite w "auth/kubernetes/login" req in
        match err with
        | Some e => log_Fatal e
        | None =>
            match sec with
            | None => log_Fatal "unable to login to get token"
            | Some sec =>
                match api.Auth sec with
                | None => panic "invalid memory address or nil pointer dereference"
                | Some auth =>
                    emit (EvSetToken (api.ClientToken auth)) ;;
                    let vaultClient := api.SetToken vaultClient (api.ClientToken auth) in
                    log L hclog.Info "retrieved token from vault"
                      ["accessor"; api.Accessor auth] ;;
                    emit (EvGo (GoRenewToken vaultClient)) ;;
                    ret vaultClient
                end
            end
        end
    | Err _ => ret vaultClient
    end
  else ret vaultClient.

(** ** Run, lines 275-288: the certificate of the listener *)

Definition listenerConfig (w : World) (tlsmgr : option Manager)
    (tlsCert : option tls.Certificate) : M tls.Config :=
  match tlsmgr, tlsCert with
  | Some _, Some tlsCert => ret {| tls.Certificates := [tlsCert] |}
  | _, _ =>
      (* HTTP/2 requires a TLS certificate, let's generate a self-signed one *)
      do '(cert, privateKey) <- snakeOilCert w "127.0.0.1:24402";
      let tlsCert := {| tls.Certificate_ := [cert]; tls.PrivateKey := privateKey |} in
      ret {| tls.Certificates := [tlsCert] |}
  end.

(** ** Run (lines 47-333) *)

Definition levelName (l : hclog.Level) : string :=
  match l with
  | hclog.Trace => "trace"
  | hclog.Debug => "debug"
  | hclog.Info => "info"
  | hclog.Warn => "warn"
  | hclog.Error => "error"
  end.

(** Lines 327-332: the accept loop, and what Run does when it comes back. *)
Definition listenAndServe (w : World) (hs : http.Server) : M Z :=
  emit (EvListenAndServeTLS hs "" "") ;;
  match wListenAndServeTLS w hs with
  | ServesForever => fun st => (Blocks, st)
  | ServeReturns (Some e) => log_Fatal e
  | ServeReturns None => ret 0
  end.

(** The port the listener binds, lines 186-189. *)
Definition listenPort (env : gmap string string) : string :=
  if bool_decide (Getenv env "PORT" = "") then "24402" else Getenv env "PORT".

(** Lines 111-333: everything after the Vault client is set up. *)
Definition startServer (w : World) (L : hclog.Logger) (vaultClient : api.Client)
    : M Z :=
  let env := wEnv w in
  let url := Getenv env "DATABASE_URL" in
  when (bool_decide (url = "")) (log_Fatal "no DATABASE_URL provided") ;;
  emit (EvGormOpen "postgres" url) ;;
  do db <- orFatal (wGormOpen w "postgres" url);
  let bucket := Getenv env "S3_BUCKET" in
  when (bool_decide (bucket = "")) (log_Fatal "S3_BUCKET not set") ;;
  let useAWS := useAWS env in
  do sess <-
    (if useAWS then
       emit EvNewSession ;;
       do s <- orFatalf "unable to initialize AWS: " (wNewSession w);
       ret (Some s)
     else ret None);
  let domain := Getenv env "HUB_DOMAIN" in
  when (bool_decide (domain = "")) (log_Fatal "missing HUB_DOMAIN") ;;
  let useTLSManager := useTLSManager env in
  do tlsmgr <-
    (if useTLSManager then
       let staging := negb (bool_decide (Getenv env "LETSENCRYPT_STAGING" = "")) in
       let cfg := {|
         tlsmanage.L := L;
         tlsmanage.Domain := domain;
         tlsmanage.VaultClient := vaultClient;
         tlsmanage.Staging := staging
       |} in
       emit (EvNewManager cfg) ;;
       do m <- orFatal (wNewManager w cfg);
       ret (Some m)
     else ret None);
  when (useAWS && useTLSManager)
    (let zoneId := Getenv env "ZONE_ID" in
     when (bool_decide (zoneId = "")) (log_Fatal "missing ZONE_ID") ;;
     emit (EvSetupRoute53 zoneId) ;;
     match tlsmgr, sess with
     | Some m, Some sess =>
         match wSetupRoute53 w m sess zoneId with
         | Some e => log_Fatal e
         | None => ret tt
         end
     | _, _ => panic "invalid memory address or nil pointer dereference"
     end) ;;
  let regTok := Getenv env "REGISTER_TOKEN" in
  when (bool_decide (regTok = "")) (log_Fatal "missing REGISTER_TOKEN") ;;
  let opsTok := Getenv env "OPS_TOKEN" in
  when (bool_decide (opsTok = "")) (log_Fatal "missing OPS_TOKEN") ;;
  let asnDB := Getenv env "ASN_DB_PATH" in
  let hubAccess := Getenv env "HUB_ACCESS_KEY" in
  let hubSecret := Getenv env "HUB_SECRET_KEY" in
  let hubTag := Getenv env "HUB_IMAGE_TAG" in
  let port := listenPort env in
  emit (EvGo (GoStartHealthz L)) ;;
  let ctx := Background L in
  do '(cert, key) <-
    match tlsmgr with
    | Some m => emit EvHubMaterial ;; orFatal (wHubMaterial w m)
    | None => ret ([], [])
    end;
  emit EvNewConsulLockManager ;;
  do lm <- orFatal (wNewConsulLockManager w);
  let scfg := {|
    control.Logger := L;
    control.DB_ := db;
    control.RegisterToken := regTok;
    control.OpsToken := opsTok;
    control.VaultClient := vaultClient;
    control.VaultPath := "hzn-k1";
    control.KeyId := "k1";
    control.AwsSession := sess;
    control.Bucket := bucket;
    control.ASNDB := asnDB;
    control.HubAccessKey := hubAccess;
    control.HubSecretKey := hubSecret;
    control.HubImageTag := hubTag;
    control.LockManager_ := lm
  |} in
  emit (EvNewServer scfg) ;;
  do s <- orFatal (wNewServer w scfg);
  (* Setup cleanup activities *)
  emit EvConfigDB ;;
  emit (EvRegisterHandler "cleanup-activity-log") ;;
  emit (EvRegisterPeriodicJob "cleanup-activity-log" "default"
          "cleanup-activity-log" time.Hour) ;;
  let hubDomain :=
    if strings.HasPrefix domain "*." then strings.from 2 domain else domain in
  do tlsCert <-
    match tlsmgr with
    | Some m =>
        emit (EvSetHubTLS cert key hubDomain) ;;
        emit (EvGo (GoPeriodicRefresh ctx time.Hour m s hubDomain)) ;;
        emit EvCertificate ;;
        do cert <- orFatal (wCertificate w m);
        ret (Some cert)
    | None => ret None
    end;
  emit EvGrpcNewServer ;;
  emit (EvGrpcRegister "ControlServices") ;;
  emit (EvGrpcRegister "ControlManagement") ;;
  emit (EvGrpcRegister "FlowTopReporter") ;;
  emit (EvGrpcRegister "reflection") ;;
  do lcfg <- listenerConfig w tlsmgr tlsCert;
  let hs := {|
    http.TLSConfig := lcfg;
    http.Addr := ":" +:+ port;
    http.IdleTimeout := 2 * time.Minute;
    http.Handler_ := Handler;
    http.ErrorLog := L
  |} in
  emit (EvRegisterRenewHandler tlsmgr) ;;
  when (negb (wRegisterRenewHandler w tlsmgr))
    (panic "invalid memory address or nil pointer dereference") ;;
  log L hclog.Info "starting background worker" [] ;;
  emit EvPrintHandlers ;;
  let wl := hclog.Named L "workq" in
  emit (EvNewWorker ["default"]) ;;
  emit (EvGo (GoWorkerRun ctx wl ["default"] url)) ;;
  listenAndServe w hs.

(** The logger Run builds on lines 48-59. *)
Definition logger (env : gmap string string) : hclog.Logger :=
  let level :=
    if bool_decide (Getenv env "DEBUG" = "") then hclog.Info else hclog.Trace in
  {| hclog.Name := "control"; hclog.LogLevel := level |}.

Definition Run (w : World) : M Z :=
  let L := logger (wEnv w) in
  log L hclog.Info "log level configured" ["level"; levelName (hclog.LogLevel L)] ;;
  log L hclog.Trace "starting server" [] ;;
  do vaultClient <- orFatal (wNewClient w);
  do vaultClient <- vaultLogin w L vaultClient;
  startServer w L vaultClient.

(** ** The background loops *)

(** What one delivery of a ticker brings and finds: the time of the tick,
    whether the shared context has been cancelled by then, and what the call
    made on this tick answers. *)
Record Tick (A : Type) := { tickAt : Time; ctxDone : bool; answer : A }.
Arguments tickAt {A} _.
Arguments ctxDone {A} _.
Arguments answer {A} _.

(** [time.NewTicker(d)] created at [start]: one tick every [d], each finding
    what the world holds for it (the state of the context, the answer of
    the call). *)
Fixpoint NewTicker {A} (d : Duration) (start : Time) (world : list (bool * A))
    : list (Tick A) :=
  match world with
  | [] => []
  | (done, a) :: world =>
      {| tickAt := time.Add start d; ctxDone := done; answer := a |}
      :: NewTicker d (time.Add start d) world
  end.

(** *** Token renewal, lines 98-107 *)

(** One turn of the [for] loop: [<-tic.C], [RenewSelf(86400)], and a line in
    the log when it fails. *)
Definition renewTurn (t : Tick (option Error)) : M unit :=
  emit (EvTick (tickAt t)) ;;
  emit (EvRenewSelf 86400) ;;
  match answer t with
  | Some err => emit (EvPrintf ("unable to renew Vault token: " +:+ err))
  | None => ret tt
  end.

(** The [for] loop over the ticks delivered so far; once they are consumed
    it waits on [tic.C] again. *)
Fixpoint renewLoop (tic : list (Tick (option Error))) : M unit :=
  match tic with
  | [] => fun st => (Blocks, st)
  | t :: tic => renewTurn t ;; renewLoop tic
  end.

(** The goroutine, started at [start]. *)
Definition renewGoroutine (start : Time) (world : list (bool * option Error))
    : M unit :=
  let tic := NewTicker time.Hour start world in
  renewLoop tic.

(** *** Hub certificate refresh, lines 253-260 *)

(** The function handed to [periodic.Run]: [tlsmgr.RefreshFromVault()],
    then [s.SetHubTLS] on success and [L.Error] on failure. *)
Definition refreshHubTLS (L : hclog.Logger) (hubDomain : string)
    (refreshed : Result (bytes * bytes)) : M unit :=
  emit EvRefreshFromVault ;;
  match refreshed with
  | Err _ => log L hclog.Error "error refreshing hub certs from vault" []
  | Ok (cert, key) => emit (EvSetHubTLS cert key hubDomain)
  end.

(** Modelled from the spec: [periodic.Run(ctx, every, f)] of pkg/periodic,
    which is not part of the sources at hand. A fixed-interval loop that
    calls [f] on every tick for the lifetime of the process and cooperates
    with cancellation of the shared context: it returns at the first tick
    that finds the context cancelled. *)
Fixpoint periodicLoop {A} (f : A -> M unit) (tic : list (Tick A)) : M unit :=
  match tic with
  | [] => fun st => (Blocks, st)
  | t :: tic =>
      if ctxDone t then ret tt
      else (emit (EvTick (tickAt t)) ;; f (answer t) ;; periodicLoop f tic)
  end.

Definition periodic_Run {A} (every : Duration) (f : A -> M unit) (start : Time)
    (world : list (bool * A)) : M unit :=
  periodicLoop f (NewTicker every start world).

(** *** The TLS material store of the control server *)

Record HubTLS := { hubCert : bytes; hubKey : bytes; hubDomain_ : string }.

(** Modelled from the spec: [Server.SetHubTLS] of pkg/control, which is not
    part of the sources at hand. The store is a single cell, created empty;
    [set] replaces the whole value (never merged), only the latest value is
    retained. *)
Definition SetHubTLS (cert key : bytes) (domain : string)
    (store : option HubTLS) : option HubTLS :=
  Some {| hubCert := cert; hubKey := key; hubDomain_ := domain |}.

(** The store after the calls of a trace, from the store before them. *)
Definition storeAfter (evs : list Event) (store : option HubTLS) : option HubTLS :=
  fold_left
    (fun store ev =>
       match ev with
       | EvSetHubTLS cert key domain => SetHubTLS cert key domain store
       | _ => store
       end)
    evs store.

(** ** Sample worlds *)

Module Sample.
Definition env : gmap string string :=
  {[ "DATABASE_URL" := "postgres://hzn@db/hzn";
     "S3_BUCKET" := "hzn-dev";
     "USE_AWS" := "0";
     "HUB_DOMAIN" := "*.hub.example.org";
     "USE_TLS_MANAGER" := "0";
     "REGISTER_TOKEN" := "reg";
     "OPS_TOKEN" := "ops" ]}.

Definition secret : api.Secret :=
  {| api.Auth := Some {| api.ClientToken := "s.token"; api.Accessor := "acc" |} |}.

(** A world in which every collaborator answers; the token file, the
    answer of the login call, the clock and the environment vary. *)
Definition world (tf : TokenFile) (login : option api.Secret * option Error)
    (now : nat -> Time) (env : gmap string string) : World := {|
  wEnv := env;
  wNewClient := Ok {| api.Token := "" |};
  wTokenFile := tf;
  wVaultWrite := fun _ _ => login;
  wGormOpen := fun _ _ => Ok (DBHandle 1);
  wNewSession := Ok (SessionHandle 1);
  wNewManager := fun _ => Ok (ManagerHandle 1);
  wSetupRoute53 := fun _ _ _ => None;
  wHubMaterial := fun _ => Ok ([x01], [x02]);
  wNewConsulLockManager := Ok (LockHandle 1);
  wNewServer := fun _ => Ok (ServerHandle 1);
  wCertificate := fun _ =>
    Ok {| tls.Certificate_ := [[x01]];
          tls.PrivateKey := {| rsa.Bits := 2048; rsa.Secret := 7 |} |};
  wGenerateKey := fun _ => Ok 42%nat;
  wRandInt := fun _ => Ok 12345;
  wNow := now;
  wCreateCertificate := fun _ _ _ _ => Ok [x30; x82];
  wRegisterRenewHandler := fun _ => true;
  wListenAndServeTLS := fun _ => ServesForever
|}.

(** The clock that advances by one nanosecond per reading, starting just
    before the turn of a second. *)
Definition ticking (n : nat) : Time := 999999999 + Z.of_nat n.

(** No token file, TLS manager switched off. *)
Definition fallback : World := world Missing (None, None) ticking env.

(** The token file is there, opening it is refused. *)
Definition noPermission : World := world NoPermission (None, None) ticking env.

(** The token file opens, reading it fails. *)
Definition readFails : World :=
  world (ReadFails "read: input/output error") (None, None) ticking env.

(** The content of the token file: the token and a line feed. *)
Definition jwt : string :=
  "eyJhbGciOiJSUzI1NiJ9" +:+ String.String "010"%char "".

(** The login call comes back with neither a secret nor an error. *)
Definition emptyLogin : World := world (Readable jwt) (None, None) ticking env.

(** The login call hands out a token. *)
Definition loggedIn : World :=
  world (Readable jwt) (Some secret, None) ticking env.
End Sample.

(** ** Vocabulary of the properties *)

(** The state after further calls [evs], [n] of them readings of the
    clock. *)
Definition advance (st : St) (evs : list Event) (n : nat) : St :=
  {| trace := trace st ++ evs; nowCalls := n + nowCalls st |}.

(** The validity window the comment on line 359 announces. *)
Definition fiveYears : Duration := 5 * 365 * 24 * time.Hour.

(** An instant at the resolution of the encoded certificate, whose validity
    times are written in whole seconds. *)
Definition seconds (t : Time) : Z := t / time.Second.

Definition is_Ok {A} (r : Result A) : Prop := exists a, r = Ok a.

(** The credential bootstrap goes through: a token is already set, or the
    token file cannot be opened, or the login exchange yields a credential. *)
Definition loginOk (w : World) (c : api.Client) : Prop :=
  api.Token c <> ""
  \/ (exists e, os_Open (wTokenFile w) = Err e)
  \/ (exists data sec auth,
        wTokenFile w = Readable data
        /\ wVaultWrite w "auth/kubernetes/login" (loginRequest data) = (Some sec, None)
        /\ api.Auth sec = Some auth).

(** Everything start-up needs from the outside besides a managed
    certificate is there and answers. *)
Record StartupDepsOk (w : World) : Prop := {
  dep_client : is_Ok (wNewClient w);
  dep_login : forall c, wNewClient w = Ok c -> loginOk w c;
  dep_url : Getenv (wEnv w) "DATABASE_URL" <> "";
  dep_db : is_Ok (wGormOpen w "postgres" (Getenv (wEnv w) "DATABASE_URL"));
  dep_bucket : Getenv (wEnv w) "S3_BUCKET" <> "";
  dep_aws : useAWS (wEnv w) = true -> is_Ok (wNewSession w);
  dep_domain : Getenv (wEnv w) "HUB_DOMAIN" <> "";
  dep_regtok : Getenv (wEnv w) "REGISTER_TOKEN" <> "";
  dep_opstok : Getenv (wEnv w) "OPS_TOKEN" <> "";
  dep_lock : is_Ok (wNewConsulLockManager w);
  dep_server : forall cfg, is_Ok (wNewServer w cfg);
  dep_keygen : is_Ok (wGenerateKey w 4096);
  dep_serial : is_Ok (wRandInt w (Z.shiftl 1 128));
  dep_cert : forall template parent pub priv,
    is_Ok (wCreateCertificate w template parent pub priv);
  (* RegisterRenewHandler of pkg/tlsmanage returns when called on the nil
     manager of line 144 *)
  dep_renew_handler : wRegisterRenewHandler w None = true
}.

(** The [http.Server] of lines 290-305 around a self-signed certificate. *)
Definition fallbackServer (env : gmap string string) (cert : bytes)
    (key : rsa.PrivateKey) : http.Server := {|
  http.TLSConfig :=
    {| tls.Certificates :=
         [{| tls.Certificate_ := [cert]; tls.PrivateKey := key |}] |};
  http.Addr := ":" +:+ listenPort env;
  http.IdleTimeout := 2 * time.Minute;
  http.Handler_ := Handler;
  http.ErrorLog := logger env
|}.

(** Every call [m] makes, from any state, satisfies [P]. *)
Definition emits {A} (P : Event -> Prop) (m : M A) : Prop :=
  forall st, exists evs, trace (m st).2 = (trace st ++ evs)%list /\ Forall P evs.

(** A certificate is only ever created for the subject [cn]. *)
Definition certifies (cn : string) (ev : Event) : Prop :=
  match ev with
  | EvCreateCertificate template _ _ _ =>
      pkix.CommonName (x509.Subject template) = cn
  | _ => True
  end.

(** The listener is only ever started on [addr]. *)
Definition listensOn (addr : string) (ev : Event) : Prop :=
  match ev with
  | EvListenAndServeTLS hs _ _ => http.Addr hs = addr
  | _ => True
  end.

(** The world with one environment variable set. *)
Definition setenv (w : World) (key value : string) : World := {|
  wEnv := <[key := value]> (wEnv w);
  wNewClient := wNewClient w;
  wTokenFile := wTokenFile w;
  wVaultWrite := wVaultWrite w;
  wGormOpen := wGormOpen w;
  wNewSession := wNewSession w;
  wNewManager := wNewManager w;
  wSetupRoute53 := wSetupRoute53 w;
  wHubMaterial := wHubMaterial w;
  wNewConsulLockManager := wNewConsulLockManager w;
  wNewServer := wNewServer w;
  wCertificate := wCertificate w;
  wGenerateKey := wGenerateKey w;
  wRandInt := wRandInt w;
  wNow := wNow w;
  wCreateCertificate := wCreateCertificate w;
  wRegisterRenewHandler := wRegisterRenewHandler w;
  wListenAndServeTLS := wListenAndServeTLS w
|}.

(** The Vault client a collaborator is configured with. *)
Definition usesClient (c : api.Client) (ev : Event) : Prop :=
  match ev with
  | EvNewManager cfg => tlsmanage.VaultClient cfg = c
  | EvNewServer cfg => control.VaultClient cfg = c
  | _ => True
  end.

(** Calls that open a socket: the health endpoint and the TLS listener. *)
Definition startsListener (ev : Event) : Prop :=
  match ev with
  | EvGo (GoStartHealthz _) | EvListenAndServeTLS _ _ _ => True
  | _ => False
  end.

(** The token file is there and its content cannot be had: opening it is
    refused, or it opens and reading fails. *)
Definition unreadable (tf : TokenFile) : Prop :=
  tf = NoPermission \/ exists e, tf = ReadFails e.

(** The first two lines Run logs. *)
Definition preamble (env : gmap string string) : list Event :=
  [EvLog (logger env) hclog.Info "log level configured"
     ["level"; levelName (hclog.LogLevel (logger env))];
   EvLog (logger env) hclog.Trace "starting server" []].

(** The lease increments asked for in a trace, in order. *)
Definition renewals (evs : list Event) : list Z :=
  omap (fun ev => match ev with EvRenewSelf n => Some n | _ => None end) evs.

(** The lines printed with [log.Printf] in a trace, in order. *)
Definition printed (evs : list Event) : list string :=
  omap (fun ev => match ev with EvPrintf msg => Some msg | _ => None end) evs.

(** The lines the renewal loop owes the log: one for each failed renewal. *)
Definition failures (world : list (bool * option Error)) : list string :=
  omap (fun x => match x.2 with
                 | Some err => Some ("unable to renew Vault token: " +:+ err)
                 | None => None
                 end) world.

(** The times of the ticks received in a trace, in order. *)
Definition tickTimes (evs : list Event) : list Time :=
  omap (fun ev => match ev with EvTick t => Some t | _ => None end) evs.

(** The same world, with the shared context cancelled, or not, throughout. *)
Definition withCtx {A} (done : bool) (world : list (bool * A)) : list (bool * A) :=
  (fun x => (done, x.2)) <$> world.

(** The common names certificates were created for in a trace, and the
    addresses listeners were started on. *)
Definition commonNames (evs : list Event) : list string :=
  omap (fun ev =>
          match ev with
          | EvCreateCertificate template _ _ _ =>
              Some (pkix.CommonName (x509.Subject template))
          | _ => None
          end) evs.

Definition addrs (evs : list Event) : list string :=
  omap (fun ev =>
          match ev with
          | EvListenAndServeTLS hs _ _ => Some (http.Addr hs)
          | _ => None
          end) evs.

(** ** Vocabulary of the further properties *)

(** Whenever [m] returns, the value and the state it returns with satisfy
    [R]. *)
Definition returns {A} (R : A -> St -> Prop) (m : M A) : Prop :=
  forall st a st', m st = (Ret a, st') -> R a st'.

(** [m] comes to an end on its own: it returns, or ends in a fatal error or
    a panic, and every call it makes satisfies [P]. *)
Definition quiet {A} (P : Event -> Prop) (m : M A) : Prop :=
  forall st, exists evs,
    trace (m st).2 = (trace st ++ evs)%list /\ Forall P evs
    /\ (m st).1 <> Blocks.

(** [m] ends the process: from any state it ends in a fatal error or a
    panic, and every call it has made by then satisfies [P]. *)
Definition stops {A} (P : Event -> Prop) (m : M A) : Prop :=
  forall st, exists evs,
    trace (m st).2 = (trace st ++ evs)%list /\ Forall P evs
    /\ match (m st).1 with Fatal _ | Panic _ => True | _ => False end.

(** Lines 240-243: the hub domain, a leading "*." of HUB_DOMAIN removed. *)
Definition hubDomainOf (domain : string) : string :=
  if strings.HasPrefix domain "*." then strings.from 2 domain else domain.

(** A required setting is missing: lines 112, 122, 138, 160, 171, 176. *)
Definition missingConfig (env : gmap string string) : Prop :=
  Getenv env "DATABASE_URL" = ""
  \/ Getenv env "S3_BUCKET" = ""
  \/ Getenv env "HUB_DOMAIN" = ""
  \/ (useAWS env = true /\ useTLSManager env = true /\ Getenv env "ZONE_ID" = "")
  \/ Getenv env "REGISTER_TOKEN" = ""
  \/ Getenv env "OPS_TOKEN" = "".

(** The world with another answer of [api.NewClient]. *)
Definition withClient (w : World) (r : Result api.Client) : World := {|
  wEnv := wEnv w;
  wNewClient := r;
  wTokenFile := wTokenFile w;
  wVaultWrite := wVaultWrite w;
  wGormOpen := wGormOpen w;
  wNewSession := wNewSession w;
  wNewManager := wNewManager w;
  wSetupRoute53 := wSetupRoute53 w;
  wHubMaterial := wHubMaterial w;
  wNewConsulLockManager := wNewConsulLockManager w;
  wNewServer := wNewServer w;
  wCertificate := wCertificate w;
  wGenerateKey := wGenerateKey w;
  wRandInt := wRandInt w;
  wNow := wNow w;
  wCreateCertificate := wCreateCertificate w;
  wRegisterRenewHandler := wRegisterRenewHandler w;
  wListenAndServeTLS := wListenAndServeTLS w
|}.

(** The calls of the login exchange up to and including the write. *)
Definition loginCalls (L : hclog.Logger) (data : string) : list Event :=
  [EvOpen tokenPath;
   EvLog L hclog.Info "attempting to login to vault via kubernetes auth" [];
   EvReadAll; EvClose;
   EvVaultWrite "auth/kubernetes/login" (loginRequest data)].

(** A DNS record is only ever set up with AWS and the TLS manager both
    switched on, and for the zone ZONE_ID names. *)
Definition route53Guarded (env : gmap string string) (ev : Event) : Prop :=
  match ev with
  | EvSetupRoute53 zoneId =>
      useAWS env = true /\ useTLSManager env = true
      /\ zoneId = Getenv env "ZONE_ID" /\ zoneId <> ""
  | _ => True
  end.

(** No call on a certificate manager; the renew handler is registered on
    the nil manager. *)
Definition withoutManager (ev : Event) : Prop :=
  match ev with
  | EvNewManager _ | EvSetupRoute53 _ | EvHubMaterial | EvSetHubTLS _ _ _
  | EvCertificate | EvGo (GoPeriodicRefresh _ _ _ _ _) => False
  | EvRegisterRenewHandler recv => recv = None
  | _ => True
  end.

(** No AWS session: none is created, none is handed to the control server,
    no DNS record is set up. *)
Definition withoutAWS (ev : Event) : Prop :=
  match ev with
  | EvNewSession | EvSetupRoute53 _ => False
  | EvNewServer cfg => control.AwsSession cfg = None
  | _ => True
  end.

(** The hub material is only ever installed, and the refresh only ever
    started, for the domain [d]. *)
Definition hubTLSFor (d : string) (ev : Event) : Prop :=
  match ev with
  | EvSetHubTLS _ _ domain => domain = d
  | EvGo (GoPeriodicRefresh _ every _ _ domain) => every = time.Hour /\ domain = d
  | _ => True
  end.

(** The shape of every listener Run starts: no certificate files, a single
    certificate, two minutes of idle time, the multiplexer as handler, and
    the address ":" followed by PORT, or by 24402 when PORT is empty or not
    set. *)
Definition listenerShape (env : gmap string string) (ev : Event) : Prop :=
  match ev with
  | EvListenAndServeTLS hs certFile keyFile =>
      certFile = "" /\ keyFile = ""
      /\ length (tls.Certificates (http.TLSConfig hs)) = 1%nat
      /\ http.IdleTimeout hs = 120 * time.Second
      /\ http.Handler_ hs = Handler
      /\ (Getenv env "PORT" = "" -> http.Addr hs = ":24402")
      /\ (Getenv env "PORT" <> "" -> http.Addr hs = ":" +:+ Getenv env "PORT")
      /\ http.Addr hs <> ":"
  | _ => True
  end.




(** What [snakeOilCert] asks of the libraries: a 4096-bit key, a serial
    number below 2^128, and a certificate that is its own parent, signed
    with the key whose public half it carries, for the subject [cn] of the
    organization SnakeOil in CH, for digital signatures. *)
Definition selfSigned (cn : string) (ev : Event) : Prop :=
  match ev with
  | EvGenerateKey bits => bits = 4096
  | EvRandInt max => max = 2 ^ 128
  | EvCreateCertificate template parent pub priv =>
      parent = template
      /\ pub = rsa.Public priv
      /\ rsa.Bits priv = 4096
      /\ x509.Subject template =
           {| pkix.Country := ["CH"]; pkix.Organization := ["SnakeOil"];
              pkix.Names := []; pkix.ExtraNames := [];
              pkix.CommonName := cn |}
      /\ x509.KeyUsage_ template = x509.KeyUsageDigitalSignature
  | EvNow => True
  | _ => False
  end.

(** The refresh function called once for each fetch in turn. *)
Fixpoint refreshTurns (L : hclog.Logger) (hubDomain : string)
    (fetched : list (Result (bytes * bytes))) : M unit :=
  match fetched with
  | [] => ret tt
  | r :: fetched => refreshHubTLS L hubDomain r ;; refreshTurns L hubDomain fetched
  end.

(** The material installed by the calls of a trace, in order. *)
Definition installs (evs : list Event) : list HubTLS :=
  omap (fun ev =>
          match ev with
          | EvSetHubTLS cert key domain =>
              Some {| hubCert := cert; hubKey := key; hubDomain_ := domain |}
          | _ => None
          end) evs.

(** The fetches that succeeded, as material for the domain [d]. *)
Definition fetchedOk (d : string) (fetched : list (Result (bytes * bytes)))
    : list HubTLS :=
  omap (fun r =>
          match r with
          | Ok (cert, key) =>
              Some {| hubCert := cert; hubKey := key; hubDomain_ := d |}
          | Err _ => None
          end) fetched.

(** The calls of one turn of the refresh function. *)
Definition refreshCalls (L : hclog.Logger) (hubDomain : string)
    (r : Result (bytes * bytes)) : list Event :=
  match r with
  | Ok (cert, key) => [EvRefreshFromVault; EvSetHubTLS cert key hubDomain]
  | Err _ =>
      [EvRefreshFromVault;
       EvLog L hclog.Error "error refreshing hub certs from vault" []]
  end.

(** How the collaborators are configured: the certificate manager for
    HUB_DOMAIN as it is given, staging exactly when LETSENCRYPT_STAGING is
    set; the control server with the settings of the environment, none of
    the required ones empty, under the fixed key path and key id. *)
Definition configuredFrom (env : gmap string string) (c : api.Client)
    (ev : Event) : Prop :=
  match ev with
  | EvNewManager cfg =>
      tlsmanage.Domain cfg = Getenv env "HUB_DOMAIN"
      /\ tlsmanage.Domain cfg <> ""
      /\ (tlsmanage.Staging cfg = true <-> Getenv env "LETSENCRYPT_STAGING" <> "")
      /\ tlsmanage.VaultClient cfg = c
  | EvNewServer cfg =>
      control.RegisterToken cfg = Getenv env "REGISTER_TOKEN"
      /\ control.RegisterToken cfg <> ""
      /\ control.OpsToken cfg = Getenv env "OPS_TOKEN"
      /\ control.OpsToken cfg <> ""
      /\ control.Bucket cfg = Getenv env "S3_BUCKET"
      /\ control.Bucket cfg <> ""
      /\ control.VaultPath cfg = "hzn-k1"
      /\ control.KeyId cfg = "k1"
      /\ control.VaultClient cfg = c
  | _ => True
  end.

(** The database and the background worker: one database URL, never empty,
    for both; the worker on the queue "default"; the clean-up job hourly. *)
Definition worksOn (env : gmap string string) (ev : Event) : Prop :=
  match ev with
  | EvGormOpen dialect url =>
      dialect = "postgres" /\ url = Getenv env "DATABASE_URL" /\ url <> ""
  | EvNewWorker queues => queues = ["default"]
  | EvGo (GoWorkerRun _ _ queues connInfo) =>
      queues = ["default"] /\ connInfo = Getenv env "DATABASE_URL" /\ connInfo <> ""
  | EvRegisterPeriodicJob name queue jobType every =>
      name = "cleanup-activity-log" /\ queue = "default"
      /\ jobType = "cleanup-activity-log" /\ every = 3600 * time.Second
  | EvRegisterHandler name => name = "cleanup-activity-log"
  | _ => True
  end.

(** * Properties *)

(** ** Strings *)

Lemma substring_0_append (p t : string) :
  String.substring 0 (String.length p) (p +:+ t) = p.
Proof.
  induction p as [|c p IH]; simpl.
  - by destruct t.
  - by rewrite IH.
Qed.

Lemma substring_0_split (n : nat) (s : string) :
  (n <= String.length s)%nat ->
  exists t, s = String.substring 0 n s +:+ t.
Proof.
  revert s. induction n as [|n IH]; intros s Hn.
  - exists s. by destruct s.
  - destruct s as [|c s]; simpl in *; [lia|].
    destruct (IH s) as [t Ht]; [lia|].
    exists t. change (String c s = String c (String.substring 0 n s +:+ t)).
    by f_equal.
Qed.

Lemma length_append (p t : string) :
  String.length (p +:+ t) = (String.length p + String.length t)%nat.
Proof. induction p; simpl; [done | by f_equal]. Qed.

Lemma HasPrefix_iff (s p : string) :
  strings.HasPrefix s p = true <-> exists t, s = p +:+ t.
Proof.
  unfold strings.HasPrefix. rewrite andb_true_iff, Nat.leb_le, String.eqb_eq.
  split.
  - intros [Hlen Hsub]. destruct (substring_0_split _ _ Hlen) as [t Ht].
    exists t. by rewrite Hsub in Ht.
  - intros [t ->]. split.
    + rewrite length_append. lia.
    + apply substring_0_append.
Qed.

(** ** The multiplexer *)

Lemma isGRPC_iff (r : Request) :
  isGRPC r = true <->
  ProtoMajor r = 2 /\ exists rest, contentType r = "application/grpc" +:+ rest.
Proof.
  unfold isGRPC.
  by rewrite andb_true_iff, Z.eqb_eq, HasPrefix_iff.
Qed.

(** C2. A request goes to the gRPC handler exactly when it came over HTTP/2
    and its Content-Type starts with "application/grpc"; every other request
    goes to the plain handler of the control server; and two requests with
    the same protocol major version and the same Content-Type are routed the
    same way. *)
Theorem Handler_routing (r : Request) :
  (Handler r = gs_ServeHTTP r <->
     ProtoMajor r = 2 /\ exists rest, contentType r = "application/grpc" +:+ rest)
  /\ (Handler r = s_ServeHTTP r <->
        ~ (ProtoMajor r = 2 /\ exists rest, contentType r = "application/grpc" +:+ rest))
  /\ (forall r' : Request,
        ProtoMajor r' = ProtoMajor r -> contentType r' = contentType r ->
        (Handler r' = gs_ServeHTTP r' <-> Handler r = gs_ServeHTTP r)).
Proof.
  assert (Hg : forall q, Handler q = gs_ServeHTTP q <-> isGRPC q = true).
  { intros q. unfold Handler. destruct (isGRPC q); split; intros; done. }
  assert (Hs : forall q, Handler q = s_ServeHTTP q <-> isGRPC q <> true).
  { intros q. unfold Handler. destruct (isGRPC q); split; intros; done. }
  split; [|split].
  - by rewrite Hg, isGRPC_iff.
  - by rewrite Hs, isGRPC_iff.
  - intros r' Hp Hc. rewrite !Hg, !isGRPC_iff, Hp, Hc. done.
Qed.

Example Handler_grpc :
  let r := {| ProtoMajor := 2;
              Header := {[ "Content-Type" := ["application/grpc+proto"] ]} |} in
  Handler r = gs_ServeHTTP r.
Proof. reflexivity. Qed.

Example Handler_plain_text :
  let r := {| ProtoMajor := 2; Header := {[ "Content-Type" := ["text/plain"] ]} |} in
  Handler r = s_ServeHTTP r.
Proof. reflexivity. Qed.

Example Handler_http1_grpc :
  let r := {| ProtoMajor := 1;
              Header := {[ "Content-Type" := ["application/grpc"] ]} |} in
  Handler r = s_ServeHTTP r.
Proof. reflexivity. Qed.

(** ** Feature toggles *)

Lemma Getenv_zero_iff (env : gmap string string) (key : string) :
  Getenv env key = "0" <-> env !! key = Some "0".
Proof.
  unfold Getenv. destruct (env !! key) as [v|]; simpl; split; intros H;
    by simplify_eq.
Qed.

(** C10. Each of the two toggles is off exactly when its variable is set to
    the string "0"; any other value switches it on, and so do an empty and
    an unset variable. *)
Theorem toggles_on_unless_zero (env : gmap string string) :
  (useAWS env = false <-> env !! "USE_AWS" = Some "0")
  /\ (useTLSManager env = false <-> env !! "USE_TLS_MANAGER" = Some "0")
  /\ (forall v, useAWS (<["USE_AWS" := v]> env) = negb (String.eqb v "0"))
  /\ (forall v, useTLSManager (<["USE_TLS_MANAGER" := v]> env) = negb (String.eqb v "0"))
  /\ useAWS (<["USE_AWS" := ""]> env) = true
  /\ useTLSManager (<["USE_TLS_MANAGER" := ""]> env) = true
  /\ useAWS (delete "USE_AWS" env) = true
  /\ useTLSManager (delete "USE_TLS_MANAGER" env) = true.
Proof.
  assert (Hoff : forall key, negb (bool_decide (Getenv env key = "0")) = false
                             <-> env !! key = Some "0").
  { intros key. rewrite negb_false_iff, bool_decide_eq_true. apply Getenv_zero_iff. }
  assert (Hset : forall key v,
             negb (bool_decide (Getenv (<[key := v]> env) key = "0"))
             = negb (String.eqb v "0")).
  { intros key v. unfold Getenv. rewrite lookup_insert_eq. simpl. f_equal.
    destruct (String.eqb_spec v "0") as [->|Hne]; [done|].
    by apply bool_decide_eq_false. }
  assert (Hunset : forall key,
             negb (bool_decide (Getenv (delete key env) key = "0")) = true).
  { intros key. unfold Getenv. by rewrite lookup_delete_eq. }
  unfold useAWS, useTLSManager.
  repeat split; try apply Hoff; try apply Hset; try apply Hunset.
Qed.

(** ** The start-up monad *)

Lemma advance_advance st evs1 n1 evs2 n2 :
  advance (advance st evs1 n1) evs2 n2 = advance st (evs1 ++ evs2) (n2 + n1).
Proof. unfold advance; simpl. by rewrite app_assoc, Nat.add_assoc. Qed.

Lemma nowCalls_advance st evs n :
  nowCalls (advance st evs n) = (n + nowCalls st)%nat.
Proof. reflexivity. Qed.

Lemma advance_nil st : advance st [] 0 = st.
Proof. destruct st. unfold advance; simpl. by rewrite app_nil_r. Qed.

Lemma bind_emit {B} (ev : Event) (k : unit -> M B) (st : St) :
  bind (emit ev) k st = k tt (advance st [ev] 0).
Proof. reflexivity. Qed.

Lemma bind_time_Now {B} (w : World) (k : Time -> M B) (st : St) :
  bind (time_Now w) k st = k (wNow w (nowCalls st)) (advance st [EvNow] 1).
Proof. reflexivity. Qed.

Lemma bind_ret {A B} (a : A) (k : A -> M B) (st : St) :
  bind (ret a) k st = k a st.
Proof. reflexivity. Qed.

Lemma bind_bind {A B C} (m : M A) (f : A -> M B) (g : B -> M C) (st : St) :
  bind (bind m f) g st = bind m (fun a => bind (f a) g) st.
Proof. unfold bind. destruct (m st) as [[a| | |] st']; reflexivity. Qed.

Lemma bind_run {A B} (m : M A) (k : A -> M B) (st st' : St) (a : A) :
  m st = (Ret a, st') -> bind m k st = k a st'.
Proof. unfold bind. by intros ->. Qed.

Lemma bind_log_Fatal {A B} (msg : string) (k : A -> M B) (st : St) :
  bind (log_Fatal msg) k st = (Fatal msg, st).
Proof. reflexivity. Qed.

Lemma bind_panic {A B} (msg : string) (k : A -> M B) (st : St) :
  bind (panic msg) k st = (Panic msg, st).
Proof. reflexivity. Qed.

Lemma bind_when_false {B} (m : M unit) (k : unit -> M B) (st : St) :
  bind (when false m) k st = k tt st.
Proof. reflexivity. Qed.

Lemma emit_run (ev : Event) (st : St) : emit ev st = (Ret tt, advance st [ev] 0).
Proof. reflexivity. Qed.

(** One step of a run: reassociate, then execute the call at the head. *)
Ltac mstep :=
  first
    [ rewrite bind_bind
    | rewrite bind_emit
    | rewrite bind_ret
    | rewrite bind_time_Now
    | rewrite bind_when_false
    | rewrite bind_log_Fatal
    | rewrite bind_panic
    | rewrite emit_run
    | rewrite advance_advance
    | progress cbv zeta ].

Ltac mrun := unfold log; repeat mstep.

(** ** snakeOilCert *)

Lemma snakeOilCert_run (w : World) (commonName : string) (st : St)
    (secret : nat) (serial : Z) (cert : bytes) :
  let key := {| rsa.Bits := 4096; rsa.Secret := secret |} in
  let template :=
    snakeOilTemplate commonName serial
      (wNow w (nowCalls st)) (wNow w (S (nowCalls st))) in
  wGenerateKey w 4096 = Ok secret ->
  wRandInt w (Z.shiftl 1 128) = Ok serial ->
  wCreateCertificate w template template (rsa.Public key) key = Ok cert ->
  snakeOilCert w commonName st =
    (Ret (cert, key),
     advance st
       [EvGenerateKey 4096; EvRandInt (Z.shiftl 1 128); EvNow; EvNow;
        EvCreateCertificate template template (rsa.Public key) key] 2).
Proof.
  intros key template Hkey Hserial Hcert.
  unfold snakeOilCert, rsa_GenerateKey, rand_Int, x509_CreateCertificate.
  mrun. rewrite Hkey. simpl orFatalf. mrun.
  rewrite Hserial. simpl orFatalf. mrun.
  rewrite !nowCalls_advance. simpl Nat.add.
  fold key template. rewrite Hcert. simpl orFatalf. by mrun.
Qed.


(** ** The Vault login of lines 70-109 *)

Section VaultLogin.
Variables (w : World) (L : hclog.Logger) (c : api.Client) (st : St).

Lemma vaultLogin_has_token :
  api.Token c <> "" -> vaultLogin w L c st = (Ret c, st).
Proof.
  intros Htok. unfold vaultLogin. by rewrite bool_decide_eq_false_2.
Qed.

Lemma vaultLogin_open_fails (e : Error) :
  api.Token c = "" -> os_Open (wTokenFile w) = Err e ->
  vaultLogin w L c st = (Ret c, advance st [EvOpen tokenPath] 0).
Proof.
  intros Htok Hopen. unfold vaultLogin.
  rewrite bool_decide_eq_true_2 by done. mrun. by rewrite Hopen.
Qed.

Lemma vaultLogin_read_fails (e : Error) :
  api.Token c = "" -> wTokenFile w = ReadFails e ->
  vaultLogin w L c st =
    (Fatal e,
     advance st
       [EvOpen tokenPath;
        EvLog L hclog.Info "attempting to login to vault via kubernetes auth" [];
        EvReadAll] 0).
Proof.
  intros Htok Hfile. unfold vaultLogin.
  rewrite bool_decide_eq_true_2 by done. rewrite Hfile. simpl os_Open.
  mrun. simpl orFatal. by mrun.
Qed.

Lemma vaultLogin_no_secret (data : string) :
  api.Token c = "" -> wTokenFile w = Readable data ->
  wVaultWrite w "auth/kubernetes/login" (loginRequest data) = (None, None) ->
  vaultLogin w L c st =
    (Fatal "unable to login to get token",
     advance st
       [EvOpen tokenPath;
        EvLog L hclog.Info "attempting to login to vault via kubernetes auth" [];
        EvReadAll; EvClose;
        EvVaultWrite "auth/kubernetes/login" (loginRequest data)] 0).
Proof.
  intros Htok Hfile Hwrite. unfold vaultLogin.
  rewrite bool_decide_eq_true_2 by done. rewrite Hfile. simpl os_Open.
  mrun. simpl orFatal. mrun. rewrite Hwrite. by mrun.
Qed.

Lemma vaultLogin_logged_in (data : string) (sec : api.Secret)
    (auth : api.SecretAuth) :
  api.Token c = "" -> wTokenFile w = Readable data ->
  wVaultWrite w "auth/kubernetes/login" (loginRequest data) = (Some sec, None) ->
  api.Auth sec = Some auth ->
  let c' := api.SetToken c (api.ClientToken auth) in
  vaultLogin w L c st =
    (Ret c',
     advance st
       [EvOpen tokenPath;
        EvLog L hclog.Info "attempting to login to vault via kubernetes auth" [];
        EvReadAll; EvClose;
        EvVaultWrite "auth/kubernetes/login" (loginRequest data);
        EvSetToken (api.ClientToken auth);
        EvLog L hclog.Info "retrieved token from vault"
          ["accessor"; api.Accessor auth];
        EvGo (GoRenewToken c')] 0).
Proof.
  intros Htok Hfile Hwrite Hauth c'. unfold vaultLogin.
  rewrite bool_decide_eq_true_2 by done. rewrite Hfile. simpl os_Open.
  mrun. simpl orFatal. mrun. rewrite Hwrite, Hauth. by mrun.
Qed.

Lemma vaultLogin_ok :
  loginOk w c ->
  exists c' evs, vaultLogin w L c st = (Ret c', advance st evs 0).
Proof.
  intros [Htok | Hrest].
  { exists c, []. by rewrite advance_nil, vaultLogin_has_token. }
  destruct (decide (api.Token c = "")) as [Htok | Htok];
    [| exists c, []; by rewrite advance_nil, vaultLogin_has_token].
  destruct Hrest as [[e Hopen] | (data & sec & auth & Hfile & Hwrite & Hauth)].
  - eexists _, _. by eapply vaultLogin_open_fails.
  - eexists _, _. by eapply vaultLogin_logged_in.
Qed.
End VaultLogin.

(** ** Start-up without a managed certificate *)

Lemma startServer_fallback (w : World) (c : api.Client) (st : St) :
  useTLSManager (wEnv w) = false ->
  StartupDepsOk w ->
  exists (cert : bytes) (key : rsa.PrivateKey) (st0 st1 : St),
    snakeOilCert w "127.0.0.1:24402" st0 = (Ret (cert, key), st1)
    /\ (exists pre, trace st0 = (trace st ++ pre)%list)
    /\ startServer w (logger (wEnv w)) c st =
         listenAndServe w (fallbackServer (wEnv w) cert key)
           (advance st1
              [EvRegisterRenewHandler None;
               EvLog (logger (wEnv w)) hclog.Info "starting background worker" [];
               EvPrintHandlers;
               EvNewWorker ["default"];
               EvGo (GoWorkerRun (Background (logger (wEnv w)))
                       (hclog.Named (logger (wEnv w)) "workq") ["default"]
                       (Getenv (wEnv w) "DATABASE_URL"))] 0).
Proof.
  intros Htls [_ _ Hurl [db Hdb] Hbucket Haws Hdomain Hreg Hops [lm Hlm]
                 Hserver [secret Hkey] [serial Hserial] Hcert Hrenew].
  unfold startServer. mrun.
  rewrite (bool_decide_eq_false_2 _ Hurl). mrun.
  rewrite Hdb. simpl orFatal. mrun.
  rewrite (bool_decide_eq_false_2 _ Hbucket). mrun.
  rewrite Htls.
  assert (Hsess : exists sess evs, forall st',
             (if useAWS (wEnv w)
              then emit EvNewSession ;;
                   do s <- orFatalf "unable to initialize AWS: " (wNewSession w);
                   ret (Some s)
              else ret None) st' = (Ret sess, advance st' evs 0)).
  { destruct (useAWS (wEnv w)).
    - destruct Haws as [s Hs]; [done|]. exists (Some s), [EvNewSession].
      intros st'. mrun. rewrite Hs. simpl orFatalf. by mrun.
    - exists None, []. intros st'. by rewrite advance_nil. }
  destruct Hsess as (sess & evs & Hsess).
  rewrite (bind_run _ _ _ _ _ (Hsess _)). mrun.
  rewrite (bool_decide_eq_false_2 _ Hdomain). mrun.
  rewrite andb_false_r. mrun.
  rewrite (bool_decide_eq_false_2 _ Hreg). mrun.
  rewrite (bool_decide_eq_false_2 _ Hops). mrun.
  rewrite Hlm. simpl orFatal. mrun.
  match goal with
  | |- context [wNewServer w ?cfg] => destruct (Hserver cfg) as [s ->]
  end.
  simpl orFatal. mrun.
  unfold listenerConfig. mrun.
  match goal with
  | |- context [bind (snakeOilCert w _) _ ?s] => set (st0 := s)
  end.
  set (template :=
         snakeOilTemplate "127.0.0.1:24402" serial
           (wNow w (nowCalls st0)) (wNow w (S (nowCalls st0)))).
  set (key := {| rsa.Bits := 4096; rsa.Secret := secret |}).
  destruct (Hcert template template (rsa.Public key) key) as [cert Hc].
  pose proof (snakeOilCert_run w "127.0.0.1:24402" st0 secret serial cert
                Hkey Hserial Hc) as Hsnake.
  fold key template in Hsnake.
  match type of Hsnake with _ = (_, ?s) => set (st1 := s) in * end.
  exists cert, key, st0, st1. split; [exact Hsnake|]. split.
  { eexists. reflexivity. }
  rewrite (bind_run _ _ _ _ _ Hsnake). mrun.
  rewrite Hrenew. simpl negb. mrun.
  reflexivity.
Qed.

Lemma listenAndServe_last (w : World) (hs : http.Server) (st : St) :
  last (trace (listenAndServe w hs st).2) = Some (EvListenAndServeTLS hs "" "").
Proof.
  unfold listenAndServe. mrun.
  destruct (wListenAndServeTLS w hs) as [|[e|]]; simpl; apply last_snoc.
Qed.

(** Start-up on the self-signed path, as far as the sources decide it. With
    the TLS manager switched off and everything else start-up needs in
    place, and provided [RegisterRenewHandler] of pkg/tlsmanage returns when
    line 307 calls it on the nil manager, Run reaches the accept loop: no
    fatal error and no panic comes before [ListenAndServeTLS], the last call
    of the run, and the listener it serves with carries the certificate and
    key that [snakeOilCert] has just generated. *)
Theorem selfsigned_startup (w : World) :
  useTLSManager (wEnv w) = false ->
  StartupDepsOk w ->
  exists (cert : bytes) (key : rsa.PrivateKey) (st0 st1 st : St),
    snakeOilCert w "127.0.0.1:24402" st0 = (Ret (cert, key), st1)
    /\ (exists post, trace st = (trace st1 ++ post)%list)
    /\ Run w init = listenAndServe w (fallbackServer (wEnv w) cert key) st
    /\ last (trace (Run w init).2)
       = Some (EvListenAndServeTLS (fallbackServer (wEnv w) cert key) "" "").
Proof.
  intros Htls Hdeps.
  destruct (dep_client w Hdeps) as [c Hc].
  destruct (vaultLogin_ok w (logger (wEnv w)) c
              (advance (advance init
                 [EvLog (logger (wEnv w)) hclog.Info "log level configured"
                    ["level"; levelName (hclog.LogLevel (logger (wEnv w)))]] 0)
                 [EvLog (logger (wEnv w)) hclog.Trace "starting server" []] 0)
              (dep_login w Hdeps c Hc))
    as (c' & evs & Hlogin).
  destruct (startServer_fallback w c'
              (advance (advance (advance init
                 [EvLog (logger (wEnv w)) hclog.Info "log level configured"
                    ["level"; levelName (hclog.LogLevel (logger (wEnv w)))]] 0)
                 [EvLog (logger (wEnv w)) hclog.Trace "starting server" []] 0)
                 evs 0) Htls Hdeps)
    as (cert & key & st0 & st1 & Hsnake & _ & Hstart).
  match type of Hstart with
  | _ = listenAndServe _ _ ?s => set (st := s) in *
  end.
  assert (Hrun : Run w init = listenAndServe w (fallbackServer (wEnv w) cert key) st).
  { unfold Run. cbv zeta. unfold log. rewrite !bind_emit.
    rewrite Hc. simpl orFatal. rewrite bind_ret.
    rewrite (bind_run _ _ _ _ _ Hlogin). exact Hstart. }
  exists cert, key, st0, st1, st. split; [exact Hsnake|].
  split; [|split; [exact Hrun|]].
  - eexists. reflexivity.
  - rewrite Hrun. apply listenAndServe_last.
Qed.

(** ** What a run can emit *)

Section Emits.
Context (P : Event -> Prop).

Lemma emits_ret {A} (a : A) : emits P (ret a).
Proof. intros st. exists []. by rewrite app_nil_r. Qed.

Lemma emits_end {A} (r : Res A) : emits P (fun st => (r, st)).
Proof. intros st. exists []. by rewrite app_nil_r. Qed.

Lemma emits_log_Fatal {A} (msg : string) : emits P (@log_Fatal A msg).
Proof. apply emits_end. Qed.

Lemma emits_panic {A} (msg : string) : emits P (@panic A msg).
Proof. apply emits_end. Qed.

Lemma emits_emit (ev : Event) : P ev -> emits P (emit ev).
Proof. intros Hev st. exists [ev]. split; [done | by constructor]. Qed.

Lemma emits_time_Now (w : World) : P EvNow -> emits P (time_Now w).
Proof. intros Hev st. exists [EvNow]. split; [done | by constructor]. Qed.

Lemma emits_bind {A B} (m : M A) (k : A -> M B) :
  emits P m -> (forall a, emits P (k a)) -> emits P (bind m k).
Proof.
  intros Hm Hk st. unfold bind.
  destruct (Hm st) as (evs & Htr & Hevs).
  destruct (m st) as [[a| | |] st']; simpl in Htr; eauto.
  destruct (Hk a st') as (evs' & Htr' & Hevs').
  exists (evs ++ evs')%list. split.
  - by rewrite Htr', Htr, app_assoc.
  - by apply Forall_app.
Qed.

Lemma emits_when (b : bool) (m : M unit) : emits P m -> emits P (when b m).
Proof. destruct b; [done | intros _; apply emits_ret]. Qed.

Lemma emits_orFatal {A} (r : Result A) : emits P (orFatal r).
Proof. destruct r; [apply emits_ret | apply emits_log_Fatal]. Qed.

Lemma emits_orFatalf {A} (prefix : string) (r : Result A) :
  emits P (orFatalf prefix r).
Proof. destruct r; [apply emits_ret | apply emits_log_Fatal]. Qed.
End Emits.

(** Walk through a run call by call; what is left are the obligations on
    the emitted events. *)
Ltac emits_step :=
  lazymatch goal with
  | |- emits _ (bind _ _) => apply emits_bind; [| intros ?]
  | |- emits _ (ret _) => apply emits_ret
  | |- emits _ (log_Fatal _) => apply emits_log_Fatal
  | |- emits _ (panic _) => apply emits_panic
  | |- emits _ (orFatal _) => apply emits_orFatal
  | |- emits _ (orFatalf _ _) => apply emits_orFatalf
  | |- emits _ (when _ _) => apply emits_when
  | |- emits _ (emit _) => apply emits_emit
  | |- emits _ (log _ _ _ _) => apply emits_emit
  | |- emits _ (time_Now _) => apply emits_time_Now
  | |- emits _ (fun st => (_, st)) => apply emits_end
  | |- emits _ (if ?b then _ else _) => destruct b
  | |- emits _ (match ?x with _ => _ end) => destruct x
  | |- emits _ (let '(_, _) := ?p in _) => destruct p
  end.

Ltac emits_walk := cbv zeta; repeat (emits_step; cbv zeta).

Lemma Run_emits (w : World) (P : Event -> Prop) :
  (forall ev, match ev with
              | EvCreateCertificate _ _ _ _ | EvListenAndServeTLS _ _ _ => True
              | _ => P ev
              end) ->
  (forall template parent pub priv,
     pkix.CommonName (x509.Subject template) = "127.0.0.1:24402" ->
     P (EvCreateCertificate template parent pub priv)) ->
  (forall hs certFile keyFile,
     http.Addr hs = ":" +:+ listenPort (wEnv w) ->
     P (EvListenAndServeTLS hs certFile keyFile)) ->
  emits P (Run w).
Proof.
  intros Hother Hcert Hlisten.
  unfold Run, startServer, listenAndServe, listenerConfig, vaultLogin,
    snakeOilCert, rsa_GenerateKey, rand_Int, x509_CreateCertificate.
  emits_walk;
    solve [ by apply Hcert | by apply Hlisten
          | match goal with |- P ?ev => exact (Hother ev) end ].
Qed.

(** ** The credential bootstrap within Run *)

Lemma Run_login (w : World) (c : api.Client) (st : St) (r : Res api.Client) :
  wNewClient w = Ok c ->
  vaultLogin w (logger (wEnv w)) c (advance init (preamble (wEnv w)) 0) = (r, st) ->
  Run w init =
    match r with
    | Ret c' => startServer w (logger (wEnv w)) c' st
    | Fatal msg => (Fatal msg, st)
    | Panic msg => (Panic msg, st)
    | Blocks => (Blocks, st)
    end.
Proof.
  intros Hc Hlogin. unfold Run. mrun. rewrite Hc. simpl orFatal. mrun.
  unfold bind. change (advance init _ _) with (advance init (preamble (wEnv w)) 0).
  rewrite Hlogin. by destruct r.
Qed.

Lemma startServer_usesClient (w : World) (L : hclog.Logger) (c : api.Client) :
  emits (usesClient c) (startServer w L c).
Proof.
  unfold startServer, listenAndServe, listenerConfig,
    snakeOilCert, rsa_GenerateKey, rand_Int, x509_CreateCertificate.
  emits_walk; done.
Qed.

(** C5. Without a token file (and without a token in the client) the login
    exchange is skipped: the only call of the bootstrap is the attempt to
    open the file, nothing is fatal there, and start-up goes on with the
    client as it was; the certificate manager and the control server are
    configured with that client. *)
Theorem login_skipped_without_token_file (w : World) (c : api.Client) :
  wNewClient w = Ok c ->
  api.Token c = "" ->
  wTokenFile w = Missing ->
  vaultLogin w (logger (wEnv w)) c (advance init (preamble (wEnv w)) 0)
    = (Ret c, advance init (preamble (wEnv w) ++ [EvOpen tokenPath]) 0)
  /\ Run w init =
       startServer w (logger (wEnv w)) c
         (advance init (preamble (wEnv w) ++ [EvOpen tokenPath]) 0)
  /\ emits (usesClient c) (startServer w (logger (wEnv w)) c).
Proof.
  intros Hc Htok Hfile.
  assert (Hlogin :
    vaultLogin w (logger (wEnv w)) c (advance init (preamble (wEnv w)) 0)
    = (Ret c, advance init (preamble (wEnv w) ++ [EvOpen tokenPath]) 0)).
  { erewrite vaultLogin_open_fails; [| done | by rewrite Hfile].
    by rewrite advance_advance. }
  split; [exact Hlogin|]. split.
  - by rewrite (Run_login w c _ _ Hc Hlogin).
  - apply startServer_usesClient.
Qed.

(** C6. With a readable token file and a login call that comes back with
    neither a secret nor an error, Run ends in the fatal error "unable to
    login to get token"; up to then it has opened no socket: neither the
    health endpoint nor the listener has been started. *)
Theorem login_empty_result_is_fatal (w : World) (c : api.Client) (data : string) :
  wNewClient w = Ok c ->
  api.Token c = "" ->
  wTokenFile w = Readable data ->
  wVaultWrite w "auth/kubernetes/login" (loginRequest data) = (None, None) ->
  exists st,
    Run w init = (Fatal "unable to login to get token", st)
    /\ trace st =
         (preamble (wEnv w) ++
          [EvOpen tokenPath;
           EvLog (logger (wEnv w)) hclog.Info
             "attempting to login to vault via kubernetes auth" [];
           EvReadAll; EvClose;
           EvVaultWrite "auth/kubernetes/login" (loginRequest data)])%list
    /\ Forall (fun ev => ~ startsListener ev) (trace st).
Proof.
  intros Hc Htok Hfile Hwrite.
  eexists. split.
  - rewrite (Run_login w c _ _ Hc
               (vaultLogin_no_secret w _ c _ data Htok Hfile Hwrite)).
    reflexivity.
  - split; [reflexivity|]. simpl. repeat constructor; simpl; tauto.
Qed.

(** C4, as the code has it. A token file that opens and then fails to be
    read is fatal: Run ends with the error of the read, before any login
    call. A token file that cannot be opened, be it for lack of permission,
    is treated like a missing one: the login is skipped and start-up goes on
    with the client as it was. *)
Theorem token_file_read_failure_is_fatal (w : World) (c : api.Client) :
  wNewClient w = Ok c ->
  api.Token c = "" ->
  (forall e, wTokenFile w = ReadFails e ->
     Run w init =
       (Fatal e,
        advance init
          (preamble (wEnv w) ++
           [EvOpen tokenPath;
            EvLog (logger (wEnv w)) hclog.Info
              "attempting to login to vault via kubernetes auth" [];
            EvReadAll]) 0))
  /\ (wTokenFile w = NoPermission ->
        Run w init =
          startServer w (logger (wEnv w)) c
            (advance init (preamble (wEnv w) ++ [EvOpen tokenPath]) 0)).
Proof.
  intros Hc Htok. split.
  - intros e Hfile.
    rewrite (Run_login w c _ _ Hc (vaultLogin_read_fails w _ c _ e Htok Hfile)).
    by rewrite advance_advance.
  - intros Hfile.
    erewrite (Run_login w c _ _ Hc).
    2:{ eapply vaultLogin_open_fails; [done | by rewrite Hfile]. }
    by rewrite advance_advance.
Qed.

(** ** The self-signed certificate *)

(** The template [snakeOilCert] signs: subject, serial number, key and key
    usage are as asked for; the window between NotBefore and NotAfter is the
    five years less the time between the two readings of the clock. *)
Lemma snakeOilTemplate_fields (commonName : string) (serial : Z)
    (notBefore now : Time) :
  let template := snakeOilTemplate commonName serial notBefore now in
  pkix.CommonName (x509.Subject template) = commonName
  /\ x509.SerialNumber template = serial
  /\ x509.KeyUsage_ template = x509.KeyUsageDigitalSignature
  /\ time.Sub (x509.NotAfter template) (x509.NotBefore template)
     = fiveYears - time.Sub now notBefore.
Proof.
  simpl. repeat split. unfold time.Sub, time.Add, fiveYears. lia.
Qed.

Lemma KeyUsageDigitalSignature_only (i : Z) :
  Z.testbit x509.KeyUsageDigitalSignature i = (i =? 0)%Z.
Proof.
  change x509.KeyUsageDigitalSignature with 1%Z.
  destruct (Z.eqb_spec i 0) as [->|Hne]; [done|].
  destruct (Z.lt_trichotomy i 0) as [Hlt | [Heq | Hgt]]; [|done|].
  - by apply Z.testbit_neg_r.
  - replace i with (Z.succ (Z.pred i)) by lia.
    change 1%Z with (2 * 0 + 1)%Z. rewrite Z.testbit_odd_succ by lia.
    apply Z.testbit_0_l.
Qed.

(** What the generator delivers. When key generation, the random source
    and the signing succeed, and the random source keeps to the range it
    was given, [snakeOilCert] returns the signed template and a 4096-bit
    key; the serial number lies in [0, 2^128), the key usage is the digital
    signature bit alone, and NotAfter lies five years after the first
    reading of the clock, while NotBefore is the second reading. *)
Lemma snakeOilCert_template (w : World) (commonName : string) (st : St) :
  is_Ok (wGenerateKey w 4096) ->
  (exists serial, wRandInt w (2 ^ 128) = Ok serial /\ 0 <= serial < 2 ^ 128) ->
  (forall template parent pub priv,
      is_Ok (wCreateCertificate w template parent pub priv)) ->
  exists cert key template st',
    snakeOilCert w commonName st = (Ret (cert, key), st')
    /\ wCreateCertificate w template template (rsa.Public key) key = Ok cert
    /\ rsa.Bits key = 4096
    /\ pkix.CommonName (x509.Subject template) = commonName
    /\ 0 <= x509.SerialNumber template < 2 ^ 128
    /\ (forall i, Z.testbit (x509.KeyUsage_ template) i = (i =? 0)%Z)
    /\ x509.NotAfter template = time.Add (wNow w (nowCalls st)) fiveYears
    /\ x509.NotBefore template = wNow w (S (nowCalls st)).
Proof.
  intros [secret Hkey] (serial & Hserial & Hrange) Hcert.
  set (key := {| rsa.Bits := 4096; rsa.Secret := secret |}).
  set (template := snakeOilTemplate commonName serial
                     (wNow w (nowCalls st)) (wNow w (S (nowCalls st)))).
  destruct (Hcert template template (rsa.Public key) key) as [cert Hc].
  exists cert, key, template. eexists. split.
  - by apply snakeOilCert_run.
  - split; [exact Hc|]. split; [reflexivity|]. split; [reflexivity|].
    split; [exact Hrange|]. split; [|split; reflexivity].
    intros i. apply KeyUsageDigitalSignature_only.
Qed.

(** C8, where the code falls short. On a clock that advances by one
    nanosecond between the two readings, the certificate [snakeOilCert]
    signs is valid for five years less one nanosecond: NotBefore is not the
    instant NotAfter was computed from. The two readings here lie on either
    side of the turn of a second, so the window is a second short of five
    years in the encoded certificate as well. *)
Theorem snakeOilCert_window_short :
  let key := {| rsa.Bits := 4096; rsa.Secret := 42 |} in
  let template :=
    snakeOilTemplate "127.0.0.1:24402" 12345 (Sample.ticking 0) (Sample.ticking 1) in
  snakeOilCert Sample.fallback "127.0.0.1:24402" init
    = (Ret ([x30; x82], key),
       advance init
         [EvGenerateKey 4096; EvRandInt (Z.shiftl 1 128); EvNow; EvNow;
          EvCreateCertificate template template (rsa.Public key) key] 2)
  /\ time.Sub (x509.NotAfter template) (x509.NotBefore template)
     = fiveYears - time.Nanosecond
  /\ time.Sub (x509.NotAfter template) (x509.NotBefore template) <> fiveYears
  /\ seconds (x509.NotAfter template) - seconds (x509.NotBefore template)
     = seconds fiveYears - 1.
Proof.
  split; [reflexivity|]. split; [reflexivity|]. split; [discriminate | reflexivity].
Qed.

(** ** The common name of the fallback certificate *)

Lemma listenPort_setenv (env : gmap string string) (port : string) :
  listenPort (<["PORT" := port]> env)
  = if bool_decide (port = "") then "24402" else port.
Proof. unfold listenPort, Getenv. by rewrite lookup_insert_eq. Qed.

(** C9. Whatever PORT is set to, every certificate Run has generated is for
    the common name "127.0.0.1:24402", while the listener is started on the
    port PORT names (24402 only when PORT is empty). *)
Theorem snakeoil_common_name_ignores_port (w : World) (port : string) (st : St) :
  exists evs,
    trace (Run (setenv w "PORT" port) st).2 = (trace st ++ evs)%list
    /\ Forall (certifies "127.0.0.1:24402") evs
    /\ Forall (listensOn (":" +:+ (if bool_decide (port = "") then "24402" else port)))
         evs.
Proof.
  destruct (Run_emits (setenv w "PORT" port)
              (fun ev => certifies "127.0.0.1:24402" ev
                         /\ listensOn (":" +:+ listenPort (<["PORT" := port]> (wEnv w))) ev))
    with (st := st) as (evs & Htrace & Hevs).
  - by intros [].
  - done.
  - done.
  - exists evs. split; [done|]. rewrite listenPort_setenv in Hevs.
    by apply Forall_and in Hevs.
Qed.

Example snakeoil_on_port_8443 :
  let run := Run (setenv Sample.fallback "PORT" "8443") init in
  run.1 = Blocks
  /\ commonNames (trace run.2) = ["127.0.0.1:24402"]
  /\ addrs (trace run.2) = [":8443"].
Proof. vm_compute. done. Qed.

(** ** The refresh of the hub certificate *)

(** C3. One turn of the refresh loop: when the fetch from Vault fails, the
    store is afterwards what it was before; when it succeeds, the store
    holds the fetched certificate and key, for the hub domain. *)
Theorem refresh_keeps_or_replaces (L : hclog.Logger) (hubDomain : string)
    (refreshed : Result (bytes * bytes)) (st : St) (store : option HubTLS) :
  exists evs,
    refreshHubTLS L hubDomain refreshed st = (Ret tt, advance st evs 0)
    /\ storeAfter evs store =
         match refreshed with
         | Err _ => store
         | Ok (cert, key) =>
             Some {| hubCert := cert; hubKey := key; hubDomain_ := hubDomain |}
         end.
Proof.
  unfold refreshHubTLS. destruct refreshed as [[cert key] | e].
  - eexists. split; [by mrun | reflexivity].
  - eexists. split; [by mrun | reflexivity].
Qed.

Lemma storeAfter_app (evs1 evs2 : list Event) (store : option HubTLS) :
  storeAfter (evs1 ++ evs2) store = storeAfter evs2 (storeAfter evs1 store).
Proof. apply fold_left_app. Qed.

(** The scenario of a failed fetch followed by a successful one, under
    [periodic.Run]. *)
Example refresh_fails_then_succeeds (L : hclog.Logger) (store : option HubTLS) :
  let world := [ (false, Err "vault: connection refused");
                 (false, Ok ([x01], [x02])) ] in
  let run world :=
    periodic_Run time.Hour (refreshHubTLS L "hub.example.org") 0 world init in
  storeAfter (trace (run (take 1 world)).2) store = store
  /\ storeAfter (trace (run world).2) store =
       Some {| hubCert := [x01]; hubKey := [x02]; hubDomain_ := "hub.example.org" |}.
Proof. split; reflexivity. Qed.

(** ** The renewal of the Vault token *)

Lemma renewTurn_run (t : Tick (option Error)) (st : St) :
  exists evs,
    renewTurn t st = (Ret tt, advance st evs 0)
    /\ tickTimes evs = [tickAt t]
    /\ renewals evs = [86400]
    /\ printed evs =
         match answer t with
         | Some err => ["unable to renew Vault token: " +:+ err]
         | None => []
         end.
Proof.
  unfold renewTurn. destruct (answer t) as [err|].
  - eexists. split; [by mrun | by repeat split].
  - eexists. split; [by mrun | by repeat split].
Qed.

(** The hours after [start]: [start + 1h], ..., [start + n h]. *)
Lemma hours_succ (start : Time) (n : nat) :
  (fun k : nat => start + Z.of_nat k * time.Hour) <$> seq 1 (S n)
  = time.Add start time.Hour
    :: ((fun k : nat => time.Add start time.Hour + Z.of_nat k * time.Hour) <$> seq 1 n).
Proof.
  unfold time.Add. generalize time.Hour. intros h.
  rewrite <- cons_seq, fmap_cons. f_equal.
  - change (Z.of_nat 1) with 1. ring.
  - rewrite <- fmap_S_seq, <- list_fmap_compose.
    apply list_fmap_ext. intros _ k _. unfold compose.
    rewrite Nat2Z.inj_succ. unfold Z.succ. ring.
Qed.

Lemma renewGoroutine_run (start : Time) (world : list (bool * option Error))
    (st : St) :
  exists evs,
    renewGoroutine start world st = (Blocks, advance st evs 0)
    /\ tickTimes evs
       = (fun k : nat => start + Z.of_nat k * time.Hour) <$> seq 1 (length world)
    /\ renewals evs = replicate (length world) 86400
    /\ printed evs = failures world.
Proof.
  unfold renewGoroutine. cbv zeta.
  revert start st. induction world as [|[done a] world IH]; intros start st.
  - exists []. by rewrite advance_nil.
  - simpl NewTicker.
    destruct (renewTurn_run
                {| tickAt := time.Add start time.Hour; ctxDone := done; answer := a |}
                st) as (evs1 & Hturn & Htick & Hren & Hpr).
    destruct (IH (time.Add start time.Hour) (advance st evs1 0))
      as (evs2 & Hloop & Hticks & Hrens & Hprs).
    exists (evs1 ++ evs2)%list. split; [|split; [|split]].
    + simpl. rewrite (bind_run _ _ _ _ _ Hturn), Hloop. by rewrite advance_advance.
    + unfold tickTimes in *. rewrite omap_app, Htick, Hticks.
      simpl length. by rewrite hours_succ.
    + unfold renewals in *. by rewrite omap_app, Hren, Hrens.
    + unfold printed in *. rewrite omap_app, Hpr, Hprs. simpl answer.
      unfold failures. by destruct a.
Qed.

Lemma renewTurn_ignores_ctx (at_ : Time) (done done' : bool) (a : option Error) :
  renewTurn {| tickAt := at_; ctxDone := done; answer := a |}
  = renewTurn {| tickAt := at_; ctxDone := done'; answer := a |}.
Proof. reflexivity. Qed.

Lemma renewGoroutine_ignores_ctx (done : bool) (start : Time)
    (world : list (bool * option Error)) (st : St) :
  renewGoroutine start (withCtx done world) st = renewGoroutine start world st.
Proof.
  unfold renewGoroutine, withCtx. cbv zeta.
  revert start st. induction world as [|[done' a] world IH]; intros start st; [done|].
  simpl. unfold bind. rewrite (renewTurn_ignores_ctx _ done done').
  destruct (renewTurn _ st) as [[[]| | |] st']; by rewrite ?IH.
Qed.

(** C7. After a successful login exchange Run has started the renewal
    goroutine for the client that carries the new token. The goroutine
    receives a tick every hour from its start; on every tick it asks for a
    lease of 86400 seconds, whether earlier renewals failed or not, and
    prints a line for each failure; it ends neither in a return nor in a
    fatal error nor in a panic, but waits for the next tick; and it runs the
    same whether or not the shared context has been cancelled. *)
Theorem renewal_loop_runs_hourly (w : World) (L : hclog.Logger) (c : api.Client)
    (st : St) (data : string) (sec : api.Secret) (auth : api.SecretAuth) :
  api.Token c = "" ->
  wTokenFile w = Readable data ->
  wVaultWrite w "auth/kubernetes/login" (loginRequest data) = (Some sec, None) ->
  api.Auth sec = Some auth ->
  (exists c' st',
      vaultLogin w L c st = (Ret c', st')
      /\ api.Token c' = api.ClientToken auth
      /\ last (trace st') = Some (EvGo (GoRenewToken c')))
  /\ (forall start world st',
        exists evs,
          renewGoroutine start world st' = (Blocks, advance st' evs 0)
          /\ tickTimes evs
             = (fun k : nat => start + Z.of_nat k * (3600 * time.Second))
               <$> seq 1 (length world)
          /\ renewals evs = replicate (length world) 86400
          /\ printed evs = failures world)
  /\ (forall done start world st',
        renewGoroutine start (withCtx done world) st'
        = renewGoroutine start world st').
Proof.
  intros Htok Hfile Hwrite Hauth. split; [|split].
  - eexists _, _. split; [by eapply vaultLogin_logged_in|].
    split; [reflexivity|]. simpl. by rewrite last_app.
  - apply renewGoroutine_run.
  - apply renewGoroutine_ignores_ctx.
Qed.

(** A failed renewal is printed and the next tick renews again, with the
    context cancelled or not. *)
Example renewal_after_failure (st : St) :
  renewGoroutine 0 [ (false, Some "permission denied"); (true, None) ] st
  = (Blocks,
     advance st
       [EvTick (1 * time.Hour); EvRenewSelf 86400;
        EvPrintf "unable to renew Vault token: permission denied";
        EvTick (2 * time.Hour); EvRenewSelf 86400] 0).
Proof.
  unfold renewGoroutine, renewLoop, renewTurn. simpl. mrun. reflexivity.
Qed.

(** [periodic.Run], for contrast, returns once the context is cancelled. *)
Example periodic_stops_when_cancelled (L : hclog.Logger) (st : St) :
  periodic_Run time.Hour (refreshHubTLS L "hub.example.org") 0
    [ (true, Ok ([x01], [x02])) ] st
  = (Ret tt, st).
Proof. reflexivity. Qed.

(** ** Closed instances *)

(** Counterexample to C4 as it is stated: the token file is there and cannot
    be read, for lack of permission, and Run goes all the way to the accept
    loop, with a Vault client that has no token. *)
Lemma token_file_without_permission_is_skipped :
  unreadable (wTokenFile Sample.noPermission)
  /\ wNewClient Sample.noPermission = Ok {| api.Token := "" |}
  /\ (exists st, Run Sample.noPermission init = (Blocks, st))
  /\ ~ (exists msg st, Run Sample.noPermission init = (Fatal msg, st)).
Proof.
  split; [by left|]. split; [reflexivity|].
  assert (H : exists st, Run Sample.fallback init = (Blocks, st)).
  { eexists. vm_compute. reflexivity. }
  destruct H as [st H].
  assert (Heq : Run Sample.noPermission init = Run Sample.fallback init)
    by (vm_compute; reflexivity).
  split.
  - exists st. by rewrite Heq.
  - intros (msg & st' & Hfatal). rewrite Heq, H in Hfatal. discriminate.
Qed.

Lemma fallback_deps : StartupDepsOk Sample.fallback.
Proof.
  split; try (eexists; reflexivity); try (intros; eexists; reflexivity);
    try (intros H; vm_compute in H; discriminate).
  intros c _. right. left. eexists. reflexivity.
Qed.

Lemma selfsigned_startup_witness :
  useTLSManager (wEnv Sample.fallback) = false
  /\ StartupDepsOk Sample.fallback
  /\ exists (cert : bytes) (key : rsa.PrivateKey) (st0 st1 st : St),
       snakeOilCert Sample.fallback "127.0.0.1:24402" st0 = (Ret (cert, key), st1)
       /\ (exists post, trace st = (trace st1 ++ post)%list)
       /\ Run Sample.fallback init
          = listenAndServe Sample.fallback
              (fallbackServer (wEnv Sample.fallback) cert key) st
       /\ last (trace (Run Sample.fallback init).2)
          = Some (EvListenAndServeTLS
                    (fallbackServer (wEnv Sample.fallback) cert key) "" "").
Proof.
  split; [reflexivity|]. split; [exact fallback_deps|].
  apply (selfsigned_startup Sample.fallback); [reflexivity | exact fallback_deps].
Defined.

Lemma login_skipped_without_token_file_witness :
  let w := Sample.fallback in
  let c := {| api.Token := "" |} in
  wTokenFile w = Missing
  /\ Run w init =
       startServer w (logger (wEnv w)) c
         (advance init (preamble (wEnv w) ++ [EvOpen tokenPath]) 0).
Proof.
  split; [reflexivity|].
  apply (login_skipped_without_token_file Sample.fallback {| api.Token := "" |});
    reflexivity.
Defined.

Lemma login_empty_result_is_fatal_witness :
  let w := Sample.emptyLogin in
  wVaultWrite w "auth/kubernetes/login" (loginRequest Sample.jwt) = (None, None)
  /\ exists st,
       Run w init = (Fatal "unable to login to get token", st)
       /\ trace st =
            (preamble (wEnv w) ++
             [EvOpen tokenPath;
              EvLog (logger (wEnv w)) hclog.Info
                "attempting to login to vault via kubernetes auth" [];
              EvReadAll; EvClose;
              EvVaultWrite "auth/kubernetes/login" (loginRequest Sample.jwt)])%list
       /\ Forall (fun ev => ~ startsListener ev) (trace st).
Proof.
  split; [reflexivity|].
  apply (login_empty_result_is_fatal Sample.emptyLogin {| api.Token := "" |}
           Sample.jwt); reflexivity.
Defined.

Lemma token_file_read_failure_is_fatal_witness :
  let w := Sample.readFails in
  wTokenFile w = ReadFails "read: input/output error"
  /\ Run w init =
       (Fatal "read: input/output error",
        advance init
          (preamble (wEnv w) ++
           [EvOpen tokenPath;
            EvLog (logger (wEnv w)) hclog.Info
              "attempting to login to vault via kubernetes auth" [];
            EvReadAll]) 0).
Proof.
  split; [reflexivity|].
  apply (token_file_read_failure_is_fatal Sample.readFails {| api.Token := "" |});
    reflexivity.
Defined.

Lemma renewal_loop_runs_hourly_witness :
  let w := Sample.loggedIn in
  let c := {| api.Token := "" |} in
  wVaultWrite w "auth/kubernetes/login" (loginRequest Sample.jwt)
    = (Some Sample.secret, None)
  /\ exists c' st',
       vaultLogin w (logger (wEnv w)) c init = (Ret c', st')
       /\ api.Token c' = "s.token"
       /\ last (trace st') = Some (EvGo (GoRenewToken c')).
Proof.
  split; [reflexivity|].
  apply (renewal_loop_runs_hourly Sample.loggedIn (logger Sample.env)
           {| api.Token := "" |} init Sample.jwt Sample.secret
           {| api.ClientToken := "s.token"; api.Accessor := "acc" |});
    reflexivity.
Defined.

(** * Further properties *)

(** ** The credential bootstrap: the paths the login can take *)

(** X1. A Vault client that already has a token is used as it is: the token
    file is not opened, no login is attempted, and start-up goes on right
    after the two opening lines of the log. *)
Theorem login_not_attempted_with_token (w : World) (c : api.Client) :
  wNewClient w = Ok c ->
  api.Token c <> "" ->
  Run w init =
    startServer w (logger (wEnv w)) c (advance init (preamble (wEnv w)) 0).
Proof.
  intros Hc Htok.
  assert (Hlogin :
    vaultLogin w (logger (wEnv w)) c (advance init (preamble (wEnv w)) 0)
    = (Ret c, advance init (preamble (wEnv w)) 0)).
  { unfold vaultLogin. by rewrite bool_decide_eq_false_2. }
  by rewrite (Run_login w c _ _ Hc Hlogin).
Qed.

Lemma login_not_attempted_with_token_witness :
  let w := withClient Sample.fallback (Ok {| api.Token := "s.preset" |}) in
  Run w init =
    startServer w (logger (wEnv w)) {| api.Token := "s.preset" |}
      (advance init (preamble (wEnv w)) 0).
Proof.
  apply (login_not_attempted_with_token
           (withClient Sample.fallback (Ok {| api.Token := "s.preset" |}))
           {| api.Token := "s.preset" |}); [reflexivity | discriminate].
Defined.

(** X2. An error of the login call is fatal with that error, whatever secret
    comes with it; the token is not set and no renewal is started. *)
Theorem login_error_is_fatal (w : World) (c : api.Client) (data : string)
    (sec : option api.Secret) (e : Error) :
  wNewClient w = Ok c ->
  api.Token c = "" ->
  wTokenFile w = Readable data ->
  wVaultWrite w "auth/kubernetes/login" (loginRequest data) = (sec, Some e) ->
  Run w init =
    (Fatal e,
     advance init (preamble (wEnv w) ++ loginCalls (logger (wEnv w)) data) 0).
Proof.
  intros Hc Htok Hfile Hwrite.
  erewrite (Run_login w c _ _ Hc).
  2:{ unfold vaultLogin. rewrite bool_decide_eq_true_2 by done.
      rewrite Hfile. simpl os_Open. mrun. simpl orFatal. mrun.
      rewrite Hwrite. mrun. reflexivity. }
  reflexivity.
Qed.

Lemma login_error_is_fatal_witness :
  let w := Sample.world (Readable Sample.jwt)
             (Some Sample.secret, Some "permission denied")
             Sample.ticking Sample.env in
  Run w init =
    (Fatal "permission denied",
     advance init
       (preamble (wEnv w) ++ loginCalls (logger (wEnv w)) Sample.jwt) 0).
Proof.
  apply (login_error_is_fatal
           (Sample.world (Readable Sample.jwt)
              (Some Sample.secret, Some "permission denied")
              Sample.ticking Sample.env)
           {| api.Token := "" |} Sample.jwt (Some Sample.secret));
    reflexivity.
Defined.

(** X3. A login call that answers with a secret that carries no [Auth] makes
    Run panic on line 95, where [sec.Auth.ClientToken] is read; the token has
    not been set by then. *)
Theorem login_secret_without_auth_panics (w : World) (c : api.Client)
    (data : string) (sec : api.Secret) :
  wNewClient w = Ok c ->
  api.Token c = "" ->
  wTokenFile w = Readable data ->
  wVaultWrite w "auth/kubernetes/login" (loginRequest data) = (Some sec, None) ->
  api.Auth sec = None ->
  Run w init =
    (Panic "invalid memory address or nil pointer dereference",
     advance init (preamble (wEnv w) ++ loginCalls (logger (wEnv w)) data) 0).
Proof.
  intros Hc Htok Hfile Hwrite Hauth.
  erewrite (Run_login w c _ _ Hc).
  2:{ unfold vaultLogin. rewrite bool_decide_eq_true_2 by done.
      rewrite Hfile. simpl os_Open. mrun. simpl orFatal. mrun.
      rewrite Hwrite, Hauth. mrun. reflexivity. }
  reflexivity.
Qed.

Lemma login_secret_without_auth_panics_witness :
  let w := Sample.world (Readable Sample.jwt)
             (Some {| api.Auth := None |}, None) Sample.ticking Sample.env in
  Run w init =
    (Panic "invalid memory address or nil pointer dereference",
     advance init
       (preamble (wEnv w) ++ loginCalls (logger (wEnv w)) Sample.jwt) 0).
Proof.
  apply (login_secret_without_auth_panics
           (Sample.world (Readable Sample.jwt)
              (Some {| api.Auth := None |}, None) Sample.ticking Sample.env)
           {| api.Token := "" |} Sample.jwt {| api.Auth := None |});
    reflexivity.
Defined.

(** X4. Whatever the world answers, the login block starts the renewal
    goroutine only together with setting a token: a goroutine is started for
    a client exactly when the block returns that client and has set its
    token, and every token set is followed by the goroutine for the client
    that carries it. *)
Theorem renewal_started_with_token_only (w : World) (L : hclog.Logger)
    (c : api.Client) (st : St) :
  exists evs,
    (vaultLogin w L c st).2 = advance st evs 0
    /\ (forall c', In (EvGo (GoRenewToken c')) evs ->
          (vaultLogin w L c st).1 = Ret c'
          /\ In (EvSetToken (api.Token c')) evs
          /\ api.Token c = "")
    /\ (forall tok, In (EvSetToken tok) evs ->
          In (EvGo (GoRenewToken (api.SetToken c tok))) evs).
Proof.
  unfold vaultLogin.
  destruct (bool_decide (api.Token c = "")) eqn:Htok.
  2:{ exists []. rewrite advance_nil. by repeat split. }
  apply bool_decide_eq_true in Htok.
  destruct (wTokenFile w) as [| |e|data]; simpl os_Open; mrun.
  - eexists. split; [reflexivity|]. split; simpl; intros; intuition discriminate.
  - eexists. split; [reflexivity|]. split; simpl; intros; intuition discriminate.
  - simpl orFatal. mrun.
    eexists. split; [reflexivity|]. split; simpl; intros; intuition discriminate.
  - simpl orFatal. mrun.
    destruct (wVaultWrite w _ _) as [[sec|] [e|]]; mrun;
      try (eexists; split; [reflexivity|];
           split; simpl; intros; intuition discriminate).
    destruct (api.Auth sec) as [auth|]; mrun;
      try (eexists; split; [reflexivity|];
           split; simpl; intros; intuition discriminate).
    eexists. split; [reflexivity|]. split; simpl.
    + intros c' H. repeat destruct H as [H|H]; try discriminate; try done.
      injection H as <-. simpl. tauto.
    + intros tok H. repeat destruct H as [H|H]; try discriminate; try done.
      injection H as <-. tauto.
Qed.

(** ** Reasoning about returns, guards and ends of a run *)

Section Returns.
Context {A : Type} (R : A -> St -> Prop).

Lemma returns_bind {B} (m : M B) (k : B -> M A) :
  (forall b, returns R (k b)) -> returns R (bind m k).
Proof.
  intros Hk st a st'. unfold bind.
  destruct (m st) as [[b| | |] st1]; try discriminate. apply Hk.
Qed.

Lemma returns_end (r : Res A) :
  match r with Ret _ => False | _ => True end -> returns R (fun st => (r, st)).
Proof. intros Hr st a st' H. injection H as -> _. done. Qed.

Lemma returns_log_Fatal (msg : string) : returns R (log_Fatal msg).
Proof. by apply returns_end. Qed.

Lemma returns_panic (msg : string) : returns R (panic msg).
Proof. by apply returns_end. Qed.
End Returns.

Section Guards.
Context (P : Event -> Prop).

Lemma emits_bind_ret {A B} (a : A) (k : A -> M B) :
  emits P (k a) -> emits P (bind (ret a) k).
Proof. intros Hk st. apply Hk. Qed.

Lemma emits_guard {B} (b : bool) (msg : string) (k : unit -> M B) :
  (b = false -> emits P (k tt)) -> emits P (bind (when b (log_Fatal msg)) k).
Proof.
  destruct b; intros Hk st.
  - exists []. by rewrite app_nil_r.
  - by apply Hk.
Qed.

Lemma emits_when_true (b : bool) (m : M unit) :
  (b = true -> emits P m) -> emits P (when b m).
Proof. destruct b; intros Hm; [by apply Hm | apply emits_ret]. Qed.

Lemma emits_bind_returns {A B} (R : A -> St -> Prop) (m : M A) (k : A -> M B) :
  returns R m -> emits P m ->
  (forall a, (exists st, R a st) -> emits P (k a)) ->
  emits P (bind m k).
Proof.
  intros HR Hm Hk st. unfold bind.
  destruct (Hm st) as (evs & Htr & Hevs).
  destruct (m st) as [[a| | |] st'] eqn:Hrun; simpl in Htr; eauto.
  destruct (Hk a (ex_intro _ st' (HR _ _ _ Hrun)) st') as (evs' & Htr' & Hevs').
  exists (evs ++ evs')%list. split.
  - by rewrite Htr', Htr, app_assoc.
  - by apply Forall_app.
Qed.
End Guards.

Ltac emits_guarded_step :=
  lazymatch goal with
  | |- emits _ (bind (ret _) _) => apply emits_bind_ret
  | |- emits _ (bind (when _ (log_Fatal _)) _) => apply emits_guard; intros ?
  | |- emits _ (when _ _) => apply emits_when_true; intros ?
  | _ => emits_step
  end.

Ltac emits_guarded_walk :=
  cbv beta iota zeta; repeat (emits_guarded_step; cbv beta iota zeta).

Section Ends.
Context (P : Event -> Prop).

Lemma quiet_end {A} (r : Res A) : r <> Blocks -> quiet P (fun st => (r, st)).
Proof. intros Hr st. exists []. by rewrite app_nil_r. Qed.

Lemma quiet_ret {A} (a : A) : quiet P (ret a).
Proof. by apply quiet_end. Qed.

Lemma quiet_log_Fatal {A} (msg : string) : quiet P (@log_Fatal A msg).
Proof. by apply quiet_end. Qed.

Lemma quiet_panic {A} (msg : string) : quiet P (@panic A msg).
Proof. by apply quiet_end. Qed.

Lemma quiet_emit (ev : Event) : P ev -> quiet P (emit ev).
Proof. intros Hev st. exists [ev]. repeat split; [by constructor | done]. Qed.

Lemma quiet_orFatal {A} (r : Result A) : quiet P (orFatal r).
Proof. destruct r; [apply quiet_ret | apply quiet_log_Fatal]. Qed.

Lemma quiet_orFatalf {A} (prefix : string) (r : Result A) :
  quiet P (orFatalf prefix r).
Proof. destruct r; [apply quiet_ret | apply quiet_log_Fatal]. Qed.

Lemma quiet_when (b : bool) (m : M unit) : quiet P m -> quiet P (when b m).
Proof. destruct b; [done | intros _; apply quiet_ret]. Qed.

Lemma quiet_bind {A B} (m : M A) (k : A -> M B) :
  quiet P m -> (forall a, quiet P (k a)) -> quiet P (bind m k).
Proof.
  intros Hm Hk st. unfold bind.
  destruct (Hm st) as (evs & Htr & Hevs & Hend).
  destruct (m st) as [[a| | |] st']; simpl in *; try by eauto.
  destruct (Hk a st') as (evs' & Htr' & Hevs' & Hend').
  exists (evs ++ evs')%list. repeat split; [| by apply Forall_app | done].
  by rewrite Htr', Htr, app_assoc.
Qed.

Lemma stops_log_Fatal {A} (msg : string) : stops P (@log_Fatal A msg).
Proof. intros st. exists []. by rewrite app_nil_r. Qed.

Lemma stops_bind_l {A B} (m : M A) (k : A -> M B) :
  stops P m -> stops P (bind m k).
Proof.
  intros Hm st. unfold bind.
  destruct (Hm st) as (evs & Htr & Hevs & Hend).
  destruct (m st) as [[a| | |] st']; simpl in *; by eauto.
Qed.

Lemma stops_bind_r {A B} (m : M A) (k : A -> M B) :
  quiet P m -> (forall a, stops P (k a)) -> stops P (bind m k).
Proof.
  intros Hm Hk st. unfold bind.
  destruct (Hm st) as (evs & Htr & Hevs & Hend).
  destruct (m st) as [[a| | |] st']; simpl in *; try by eauto.
  destruct (Hk a st') as (evs' & Htr' & Hevs' & Hend').
  exists (evs ++ evs')%list. repeat split; [| by apply Forall_app | done].
  by rewrite Htr', Htr, app_assoc.
Qed.
End Ends.

Ltac quiet_step :=
  lazymatch goal with
  | |- quiet _ (bind _ _) => apply quiet_bind; [| intros ?]
  | |- quiet _ (ret _) => apply quiet_ret
  | |- quiet _ (log_Fatal _) => apply quiet_log_Fatal
  | |- quiet _ (panic _) => apply quiet_panic
  | |- quiet _ (orFatal _) => apply quiet_orFatal
  | |- quiet _ (orFatalf _ _) => apply quiet_orFatalf
  | |- quiet _ (when _ _) => apply quiet_when
  | |- quiet _ (emit _) => apply quiet_emit
  | |- quiet _ (if ?b then _ else _) => destruct b
  | |- quiet _ (match ?x with _ => _ end) => destruct x
  end.

Ltac quiet_walk := cbv beta iota zeta; repeat (quiet_step; cbv beta iota zeta).

(** Walk to the guard that fails: what comes before it is quiet, the guard
    itself ends the run. *)
Ltac stops_walk :=
  repeat (cbv beta iota zeta;
          first
            [ apply stops_bind_l; apply stops_log_Fatal
            | apply stops_bind_l; apply stops_bind_l; apply stops_log_Fatal
            | apply stops_bind_r; [quiet_walk; simpl; tauto | intros ?] ]).

(** ** Required settings *)

(** X5. When a required setting is missing (the database URL, the bucket,
    the hub domain, the zone id with both AWS and the TLS manager switched
    on, the register token or the ops token), everything after the Vault
    login ends in a fatal error (or panic) without having started the health
    endpoint or the listener. *)
Theorem missing_config_stops_startup (w : World) (L : hclog.Logger)
    (c : api.Client) :
  missingConfig (wEnv w) ->
  stops (fun ev => ~ startsListener ev) (startServer w L c).
Proof.
  unfold startServer. cbv zeta.
  intros [H | [H | [H | [(Haws & Htls & H) | [H | H]]]]];
    try rewrite Haws; try rewrite Htls;
    rewrite (bool_decide_eq_true_2 _ H); stops_walk.
Qed.

Lemma missing_config_stops_startup_witness :
  let w := setenv Sample.fallback "REGISTER_TOKEN" "" in
  missingConfig (wEnv w)
  /\ stops (fun ev => ~ startsListener ev)
       (startServer w (logger (wEnv w)) {| api.Token := "" |}).
Proof.
  assert (H : missingConfig (wEnv (setenv Sample.fallback "REGISTER_TOKEN" "")))
    by (do 4 right; left; reflexivity).
  split; [exact H|].
  apply (missing_config_stops_startup
           (setenv Sample.fallback "REGISTER_TOKEN" "")); exact H.
Defined.

(** ** The feature toggles within start-up *)

(** X6. A DNS record is set up only when AWS and the TLS manager are both
    switched on, only for the zone ZONE_ID names, and never for an empty
    zone id. *)
Theorem route53_only_with_both_toggles (w : World) (L : hclog.Logger)
    (c : api.Client) :
  emits (route53Guarded (wEnv w)) (startServer w L c).
Proof.
  unfold startServer, listenAndServe, listenerConfig,
    snakeOilCert, rsa_GenerateKey, rand_Int, x509_CreateCertificate.
  destruct (useAWS (wEnv w)) eqn:Haws; destruct (useTLSManager (wEnv w)) eqn:Htls;
    emits_guarded_walk; try done.
  all: unfold route53Guarded; rewrite Haws, Htls.
  all: repeat split; try done; eapply bool_decide_eq_false_1; eassumption.
Qed.

(** X7. With the TLS manager switched off no certificate manager is created
    or called: no DNS set-up, no hub material fetched or installed, no
    refresh loop, no managed certificate; the renew handler is registered on
    the nil manager. *)
Theorem no_manager_calls_when_switched_off (w : World) (L : hclog.Logger)
    (c : api.Client) :
  useTLSManager (wEnv w) = false ->
  emits withoutManager (startServer w L c).
Proof.
  intros Htls.
  unfold startServer, listenAndServe, listenerConfig,
    snakeOilCert, rsa_GenerateKey, rand_Int, x509_CreateCertificate.
  cbv zeta. rewrite Htls, andb_false_r.
  emits_guarded_walk; done.
Qed.

Lemma no_manager_calls_when_switched_off_witness :
  useTLSManager (wEnv Sample.fallback) = false
  /\ emits withoutManager
       (startServer Sample.fallback (logger Sample.env) {| api.Token := "" |}).
Proof.
  split; [reflexivity|].
  apply (no_manager_calls_when_switched_off Sample.fallback); reflexivity.
Defined.

(** X8. With AWS switched off no session is created, the control server is
    configured without one, and no DNS record is set up. *)
Theorem no_aws_calls_when_switched_off (w : World) (L : hclog.Logger)
    (c : api.Client) :
  useAWS (wEnv w) = false ->
  emits withoutAWS (startServer w L c).
Proof.
  intros Haws.
  unfold startServer, listenAndServe, listenerConfig,
    snakeOilCert, rsa_GenerateKey, rand_Int, x509_CreateCertificate.
  cbv zeta. rewrite Haws, andb_false_l.
  emits_guarded_walk; done.
Qed.

Lemma no_aws_calls_when_switched_off_witness :
  useAWS (wEnv Sample.fallback) = false
  /\ emits withoutAWS
       (startServer Sample.fallback (logger Sample.env) {| api.Token := "" |}).
Proof.
  split; [reflexivity|].
  apply (no_aws_calls_when_switched_off Sample.fallback); reflexivity.
Defined.

(** ** The hub domain *)

Lemma substring_all (t : string) : String.substring 0 (String.length t) t = t.
Proof. induction t as [|b t IH]; simpl; [done | by rewrite IH]. Qed.

Lemma from_append (p t : string) :
  strings.from (String.length p) (p +:+ t) = t.
Proof.
  unfold strings.from. rewrite length_append.
  replace (String.length p + String.length t - String.length p)%nat
    with (String.length t) by lia.
  induction p as [|a p IH].
  - change ("" +:+ t) with t. apply substring_all.
  - change (String a p +:+ t) with (String a (p +:+ t)). exact IH.
Qed.

(** X9. The hub domain is HUB_DOMAIN with one leading "*." removed, and
    HUB_DOMAIN itself when it does not start with "*."; the hub material is
    installed, and the hourly refresh started, for that domain only. *)
Theorem hub_domain_wildcard_stripped (w : World) (L : hclog.Logger)
    (c : api.Client) :
  (forall d, hubDomainOf ("*." +:+ d) = d)
  /\ (forall domain,
        (~ exists d, domain = "*." +:+ d) -> hubDomainOf domain = domain)
  /\ emits (hubTLSFor (hubDomainOf (Getenv (wEnv w) "HUB_DOMAIN")))
       (startServer w L c).
Proof.
  split; [|split].
  - intros d. unfold hubDomainOf.
    rewrite (proj2 (HasPrefix_iff _ _)) by eauto.
    exact (from_append "*." d).
  - intros domain Hno. unfold hubDomainOf.
    destruct (strings.HasPrefix domain "*.") eqn:Hp; [|done].
    apply HasPrefix_iff in Hp. contradiction.
  - unfold startServer, listenAndServe, listenerConfig,
      snakeOilCert, rsa_GenerateKey, rand_Int, x509_CreateCertificate.
    emits_guarded_walk; done.
Qed.

(** ** The listener *)

Lemma returns_ret {A} (R : A -> St -> Prop) (a : A) :
  (forall st, R a st) -> returns R (ret a).
Proof. intros Ha st a' st' H. injection H as <- <-. apply Ha. Qed.

Lemma listenerConfig_one_certificate (w : World) (tlsmgr : option Manager)
    (tlsCert : option tls.Certificate) :
  returns (fun lcfg _ => length (tls.Certificates lcfg) = 1%nat)
    (listenerConfig w tlsmgr tlsCert).
Proof.
  unfold listenerConfig.
  destruct tlsmgr as [m|], tlsCert as [cert|];
    try (by apply returns_ret);
    apply returns_bind; intros [der key]; by apply returns_ret.
Qed.

Lemma listenPort_nonempty (env : gmap string string) : listenPort env <> "".
Proof. unfold listenPort. case_bool_decide; done. Qed.

Ltac listener_step :=
  lazymatch goal with
  | |- emits _ (bind (listenerConfig _ _ _) _) =>
      eapply emits_bind_returns;
      [ apply listenerConfig_one_certificate
      | unfold listenerConfig, snakeOilCert, rsa_GenerateKey, rand_Int,
          x509_CreateCertificate; emits_walk
      | intros ? [? ?] ]
  | _ => emits_guarded_step
  end.

(** X10. Every listener Run starts has the same shape, on the managed and on
    the self-signed path alike: it is started without certificate files, on
    a TLS configuration with exactly one certificate, with an idle timeout
    of two minutes and the multiplexer as its handler, on the address ":"
    followed by PORT, and on ":24402" when PORT is empty or not set; the
    address is never a bare ":". *)
Theorem listener_shape (w : World) :
  emits (listenerShape (wEnv w)) (Run w).
Proof.
  unfold Run, startServer, listenAndServe, vaultLogin.
  cbv beta iota zeta. repeat (listener_step; cbv beta iota zeta); try done.
  all: simpl; repeat split; try done; try reflexivity.
  all: fold (listenPort (wEnv w)); intros Hp.
  - unfold listenPort. by rewrite (bool_decide_eq_true_2 _ Hp).
  - unfold listenPort. by rewrite (bool_decide_eq_false_2 _ Hp).
  - injection Hp as Hport. by apply listenPort_nonempty in Hport.
Qed.

(** The default port and a port of the environment. *)
Example listener_on_default_and_given_port :
  addrs (trace (Run Sample.fallback init).2) = [":24402"]
  /\ addrs (trace (Run (setenv Sample.fallback "PORT" "8443") init).2) = [":8443"].
Proof. vm_compute. done. Qed.

(** X11. Run comes back only from the accept loop, and then with status 0:
    whenever it returns, the last thing it did was [ListenAndServeTLS], that
    call came back without an error, and the status is 0. An error of the
    accept loop is fatal with that error. *)
Theorem Run_returns_zero (w : World) :
  returns
    (fun code st =>
       code = 0
       /\ exists hs,
            last (trace st) = Some (EvListenAndServeTLS hs "" "")
            /\ wListenAndServeTLS w hs = ServeReturns None)
    (Run w)
  /\ (forall hs st e,
        wListenAndServeTLS w hs = ServeReturns (Some e) ->
        listenAndServe w hs st
        = (Fatal e, advance st [EvListenAndServeTLS hs "" ""] 0)).
Proof.
  split.
  - unfold Run, startServer. cbv zeta.
    repeat lazymatch goal with
           | |- returns _ (bind _ _) => apply returns_bind; intros ?
           | |- returns _ (let '(_, _) := ?p in _) => destruct p
           end.
    intros st code st' H. unfold listenAndServe in H. revert H. mrun.
    destruct (wListenAndServeTLS w _) as [|[e|]] eqn:Hserve; try discriminate.
    intros H. injection H as <- <-. split; [done|].
    eexists. split; [apply last_snoc | exact Hserve].
  - intros hs st e H. unfold listenAndServe. mrun. by rewrite H.
Qed.

(** ** Start-up with a managed certificate *)




(** ** The self-signed generator *)

(** X13. Whatever the libraries answer, [snakeOilCert] asks for a 4096-bit
    key and a serial number below 2^128, reads the clock at most twice, and
    has a certificate created only as its own parent, with the public half
    of the key that signs it, for the given common name of SnakeOil, CH, and
    for digital signatures; it ends by returning or in a fatal error, never
    in a panic. *)
Theorem snakeOilCert_is_self_signed (w : World) (cn : string) (st : St) :
  exists evs n,
    (snakeOilCert w cn st).2 = advance st evs n
    /\ (n <= 2)%nat
    /\ Forall (selfSigned cn) evs
    /\ match (snakeOilCert w cn st).1 with
       | Ret (_, key) => rsa.Bits key = 4096 /\ n = 2%nat
       | Fatal _ => True
       | Panic _ | Blocks => False
       end.
Proof.
  unfold snakeOilCert, rsa_GenerateKey, rand_Int, x509_CreateCertificate.
  mrun. destruct (wGenerateKey w 4096) as [secret|e]; simpl orFatalf; mrun.
  2:{ eexists _, _. split; [reflexivity|]. split; [lia|].
      split; [by repeat constructor | done]. }
  destruct (wRandInt w (Z.shiftl 1 128)) as [serial|e]; simpl orFatalf; mrun.
  2:{ eexists _, _. split; [reflexivity|]. split; [lia|].
      split; [by repeat constructor | done]. }
  match goal with
  | |- context [wCreateCertificate w ?t ?p ?pub ?priv] =>
      destruct (wCreateCertificate w t p pub priv) as [cert|e]
  end; simpl orFatalf; mrun.
  - eexists _, _. split; [reflexivity|]. split; [simpl; lia|].
    split; [by repeat constructor | done].
  - eexists _, _. split; [reflexivity|]. split; [simpl; lia|].
    split; [by repeat constructor | done].
Qed.

(** X14. The failures of [snakeOilCert] in the order it meets them: a failed
    key generation is fatal before the random source is asked for a serial
    number; a failed serial number is fatal before the clock is read; a
    failed signing is fatal after both readings. Each message carries the
    error. *)
Theorem snakeOilCert_failures (w : World) (cn : string) (st : St) :
  match wGenerateKey w 4096 with
  | Err e =>
      snakeOilCert w cn st
      = (Fatal ("unable to create snakeoil ed25519 key pair: " +:+ e),
         advance st [EvGenerateKey 4096] 0)
  | Ok secret =>
      match wRandInt w (2 ^ 128) with
      | Err e =>
          snakeOilCert w cn st
          = (Fatal ("failed to generate serial number: " +:+ e),
             advance st [EvGenerateKey 4096; EvRandInt (2 ^ 128)] 0)
      | Ok serial =>
          let key := {| rsa.Bits := 4096; rsa.Secret := secret |} in
          let template :=
            snakeOilTemplate cn serial
              (wNow w (nowCalls st)) (wNow w (S (nowCalls st))) in
          match wCreateCertificate w template template (rsa.Public key) key with
          | Err e =>
              snakeOilCert w cn st
              = (Fatal ("unable to create x509 certificate: " +:+ e),
                 advance st
                   [EvGenerateKey 4096; EvRandInt (2 ^ 128); EvNow; EvNow;
                    EvCreateCertificate template template (rsa.Public key) key]
                   2)
          | Ok cert => (snakeOilCert w cn st).1 = Ret (cert, key)
          end
      end
  end.
Proof.
  unfold snakeOilCert, rsa_GenerateKey, rand_Int, x509_CreateCertificate.
  change (2 ^ 128) with (Z.shiftl 1 128).
  mrun. destruct (wGenerateKey w 4096) as [secret|e]; simpl orFatalf; mrun;
    [|reflexivity].
  destruct (wRandInt w (Z.shiftl 1 128)) as [serial|e]; simpl orFatalf; mrun;
    [|reflexivity].
  rewrite !nowCalls_advance. simpl Nat.add. cbv zeta.
  destruct (wCreateCertificate w _ _ _ _) as [cert|e]; simpl orFatalf; mrun;
    reflexivity.
Qed.

(** ** The refresh function over many turns *)

Lemma refreshHubTLS_run (L : hclog.Logger) (hubDomain : string)
    (r : Result (bytes * bytes)) (st : St) :
  refreshHubTLS L hubDomain r st = (Ret tt, advance st (refreshCalls L hubDomain r) 0).
Proof. unfold refreshHubTLS. destruct r as [[cert key]|e]; by mrun. Qed.

Lemma storeAfter_installs (evs : list Event) (store : option HubTLS) :
  storeAfter evs store = from_option Some store (last (installs evs)).
Proof.
  revert store. induction evs as [|ev evs IH] using rev_ind; intros store; [done|].
  unfold storeAfter, installs in *. rewrite fold_left_app, omap_app. simpl.
  destruct ev; simpl; rewrite ?app_nil_r; try apply IH.
  by rewrite last_snoc.
Qed.

(** X15. Over any sequence of fetches the refresh function installs exactly
    the fetches that succeeded, in their order and for the hub domain, and
    nothing for those that failed; so the store ends with the latest
    successful fetch, or with what it held before when none succeeded. The
    refresh function never ends the process. *)
Theorem refresh_installs_successes (L : hclog.Logger) (hubDomain : string)
    (fetched : list (Result (bytes * bytes))) (st : St) (store : option HubTLS) :
  exists evs,
    refreshTurns L hubDomain fetched st = (Ret tt, advance st evs 0)
    /\ installs evs = fetchedOk hubDomain fetched
    /\ storeAfter evs store
       = from_option Some store (last (fetchedOk hubDomain fetched)).
Proof.
  assert (H : exists evs,
             refreshTurns L hubDomain fetched st = (Ret tt, advance st evs 0)
             /\ installs evs = fetchedOk hubDomain fetched).
  { revert st. induction fetched as [|r fetched IH]; intros st.
    - exists []. by rewrite advance_nil.
    - destruct (IH (advance st (refreshCalls L hubDomain r) 0))
        as (evs & Hrun & Hinst).
      exists (refreshCalls L hubDomain r ++ evs)%list. split.
      + simpl. rewrite (bind_run _ _ _ _ _ (refreshHubTLS_run L hubDomain r st)).
        by rewrite Hrun, advance_advance.
      + unfold installs in *. rewrite omap_app, Hinst.
        by destruct r as [[cert key]|e]. }
  destruct H as (evs & Hrun & Hinst).
  exists evs. split; [exact Hrun|]. split; [exact Hinst|].
  by rewrite storeAfter_installs, Hinst.
Qed.

(** ** The multiplexer and a missing Content-Type *)

(** X16. Only the first Content-Type value of a request counts: with one,
    the request goes to the gRPC handler exactly when it came over HTTP/2
    and that value starts with "application/grpc"; a request without a
    Content-Type header, or with an empty list of values, goes to the plain
    handler whatever its protocol. *)
Theorem Handler_first_content_type (r : Request) :
  match Header r !! "Content-Type" with
  | Some (v :: _) =>
      Handler r = gs_ServeHTTP r
      <-> ProtoMajor r = 2 /\ exists rest, v = "application/grpc" +:+ rest
  | _ => Handler r = s_ServeHTTP r
  end.
Proof.
  unfold Handler, isGRPC, contentType, Header_Get.
  destruct (Header r !! "Content-Type") as [[|v vs]|].
  - by rewrite andb_false_r.
  - rewrite <- HasPrefix_iff, <- Z.eqb_eq, <- andb_true_iff.
    destruct (_ && _); split; intros; done.
  - by rewrite andb_false_r.
Qed.

(** ** The Vault client *)

(** X17. When the Vault client cannot be created Run ends in a fatal error
    with that error right after its two opening lines of the log: the token
    file is not opened and nothing else is set up. *)
Theorem client_error_is_fatal (w : World) (e : Error) :
  wNewClient w = Err e ->
  Run w init = (Fatal e, advance init (preamble (wEnv w)) 0).
Proof.
  intros Hc. unfold Run. mrun. rewrite Hc. simpl orFatal. by mrun.
Qed.

Lemma client_error_is_fatal_witness :
  let w := withClient Sample.fallback (Err "invalid VAULT_ADDR") in
  Run w init = (Fatal "invalid VAULT_ADDR", advance init (preamble (wEnv w)) 0).
Proof.
  apply (client_error_is_fatal
           (withClient Sample.fallback (Err "invalid VAULT_ADDR")));
    reflexivity.
Defined.

(** ** How the collaborators are configured *)

Ltac startServer_walk :=
  unfold startServer, listenAndServe, listenerConfig,
    snakeOilCert, rsa_GenerateKey, rand_Int, x509_CreateCertificate;
  emits_guarded_walk; try done.

(** X18. The certificate manager is created for HUB_DOMAIN as it is given
    (a leading "*." included), never for an empty domain, for the staging
    authority exactly when LETSENCRYPT_STAGING is not empty. The control
    server is created with the register token, the ops token and the bucket
    of the environment, none of them empty, under the key path "hzn-k1" and
    the key id "k1". Both get the Vault client start-up was given. *)
Theorem collaborators_configured_from_env (w : World) (L : hclog.Logger)
    (c : api.Client) :
  emits (configuredFrom (wEnv w) c) (startServer w L c).
Proof.
  startServer_walk.
  all: simpl; repeat split; try done;
    try (eapply bool_decide_eq_false_1; eassumption).
  all: rewrite negb_true_iff, bool_decide_eq_false; done.
Qed.

(** X19. The database is opened with the dialect "postgres" on DATABASE_URL,
    which is never empty then; the background worker is created for the
    queue "default" and run on the same URL; the handler and the periodic
    job Run registers by name are the clean-up of the activity log, every
    hour on the queue "default". *)
Theorem database_and_worker (w : World) (L : hclog.Logger) (c : api.Client) :
  emits (worksOn (wEnv w)) (startServer w L c).
Proof.
  startServer_walk.
  all: simpl; repeat split; try done;
    try (eapply bool_decide_eq_false_1; eassumption).
Qed.

(** ** White space around the token *)

Example TrimSpace_ascii :
  strings.TrimSpace Sample.jwt = "eyJhbGciOiJSUzI1NiJ9".
Proof. reflexivity. Qed.

(** A no-break space (U+00A0) and an em space (U+2003) are white space too;
    a lone lead byte is not. *)
Example TrimSpace_unicode :
  let nbsp := String.String (Ascii.ascii_of_N 194) (String.String (Ascii.ascii_of_N 160) "") in
  let emsp :=
    String.String (Ascii.ascii_of_N 226)
      (String.String (Ascii.ascii_of_N 128)
         (String.String (Ascii.ascii_of_N 131) "")) in
  let lead := String.String (Ascii.ascii_of_N 194) "" in
  strings.TrimSpace (nbsp +:+ " a b " +:+ emsp +:+ nbsp) = "a b"
  /\ strings.TrimSpace (lead +:+ " a " +:+ lead) = lead +:+ " a " +:+ lead.
Proof. split; reflexivity. Qed.
